(** * AI Financial Analyst: the form component of [App.tsx]

    A shallow embedding of the logic of
    [src/frontend/AI_financial_analyst/src/App.tsx]: the parser
    [parseFeatures], the submit handler [handlePredict], the risk tier
    [getRiskLevel] and the part of the rendering that depends on the
    prediction result.

    JavaScript strings are sequences of UTF-16 code units, JavaScript
    numbers are IEEE 754 binary64 values (the [spec_float] of the
    Standard Library at precision 53), exceptions are an error monad, and
    the component state together with the calls made to [fetch] is threaded
    explicitly through [handlePredict]. *)

From Stdlib Require Import List Bool ZArith NArith PArith Lia.
From Stdlib Require Import Ascii String DecimalString.
From Stdlib Require DecimalPos.
From Stdlib Require Import Floats.SpecFloat.
Import ListNotations.

Set Implicit Arguments.

(** ** Strings *)

Module JsString.

(** A UTF-16 code unit. *)
Definition char : Type := N.

Definition jsstring : Type := list char.

(** The code units of an ASCII literal of the source. *)
Definition lit (s : string) : jsstring :=
  map N_of_ascii (list_ascii_of_string s).

Definition comma : char := 44%N.

(** [WhiteSpace] and [LineTerminator] of ECMAScript, the code units that
    [String.prototype.trim] and [parseFloat] strip. *)
Definition isWhiteSpace (c : char) : bool :=
  ((9 <=? c) && (c <=? 13) || (c =? 32) || (c =? 0xA0) || (c =? 0x1680)
   || (0x2000 <=? c) && (c <=? 0x200A)
   || (c =? 0x2028) || (c =? 0x2029) || (c =? 0x202F) || (c =? 0x205F)
   || (c =? 0x3000) || (c =? 0xFEFF))%N.

Fixpoint trimStart (s : jsstring) : jsstring :=
  match s with
  | [] => []
  | c :: r => if isWhiteSpace c then trimStart r else s
  end.

Fixpoint trimEnd (s : jsstring) : jsstring :=
  match s with
  | [] => []
  | c :: r =>
      match trimEnd r with
      | [] => if isWhiteSpace c then [] else [c]
      | r' => c :: r'
      end
  end.

(** [s.trim()] *)
Definition trim (s : jsstring) : jsstring := trimEnd (trimStart s).

(** [s.split(',')]: the pieces between the commas, never an empty list. *)
Fixpoint split (s : jsstring) : list jsstring :=
  match s with
  | [] => [[]]
  | c :: r =>
      if (c =? comma)%N then [] :: split r
      else match split r with
           | [] => [[c]]
           | h :: t => (c :: h) :: t
           end
  end.

(** The decimal digits of a non-negative integer, as a template literal
    prints an array length or an HTTP status. *)
Definition decimal (n : N) : jsstring :=
  lit (NilEmpty.string_of_uint (N.to_uint n)).

Definition isEmpty (s : jsstring) : bool :=
  match s with [] => true | _ => false end.

Fixpoint startsWith (p s : jsstring) : bool :=
  match p, s with
  | [], _ => true
  | _ :: _, [] => false
  | a :: p', b :: s' => (a =? b)%N && startsWith p' s'
  end.

(** [s.includes(p)] *)
Fixpoint includes (p s : jsstring) : bool :=
  startsWith p s
  || match s with
     | [] => false
     | _ :: s' => includes p s'
     end.

End JsString.
Import JsString.

(** ** Numbers *)

Module JsNumber.

Definition prec : Z := 53.
Definition emax : Z := 1024.

(** A Number value.  The values the language produces are the canonical
    ones, [valid_binary prec emax x = true]. *)
Definition number : Type := spec_float.

Definition NaN : number := S754_nan.
Definition Infinity : number := S754_infinity false.

Definition isNaN (x : number) : bool :=
  match x with S754_nan => true | _ => false end.

(** [Number.isFinite] *)
Definition isFinite (x : number) : bool :=
  match x with
  | S754_zero _ | S754_finite _ _ _ => true
  | S754_infinity _ | S754_nan => false
  end.

(** [x < y], [x > y], [x === y] and [x * y] on numbers. *)
Definition lt (x y : number) : bool := SFltb x y.
Definition gt (x y : number) : bool := SFltb y x.
Definition strictEq (x y : number) : bool := SFeqb x y.
Definition mul (x y : number) : number := SFmul prec emax x y.

(** The Number value of the decimal [m * 10^e], rounded to nearest, ties to
    even; [neg] is the sign of the literal.  (Past 20 significant digits
    ECMAScript lets an engine round the digits first; the value is taken
    exact, as the engines in use do.) *)
Definition ofDecimal (neg : bool) (m : N) (e : Z) : number :=
  match m with
  | N0 => S754_zero neg
  | Npos p =>
      if (0 <=? e)%Z then
        binary_round prec emax neg (p * Z.to_pos (10 ^ e)) 0
      else
        let '(q, e', l) :=
          SFdiv_core_binary prec emax (Zpos p) 0 (10 ^ (- e)) 0 in
        binary_round_aux prec emax neg q e' l
  end.

(** The Number value of an integer literal of the source. *)
Definition ofN (n : N) : number := ofDecimal false n 0.

Definition isDigit (c : char) : bool := ((48 <=? c) && (c <=? 57))%N.

(** The longest run of decimal digits at the start of [s], and the rest. *)
Fixpoint takeDigits (s : jsstring) : jsstring * jsstring :=
  match s with
  | [] => ([], [])
  | c :: r =>
      if isDigit c then let '(ds, r') := takeDigits r in (c :: ds, r')
      else ([], s)
  end.

(** The mathematical value of a run of decimal digits. *)
Definition digitsValue (ds : jsstring) : N :=
  fold_left (fun acc c => (10 * acc + (c - 48))%N) ds 0%N.

(** An optional sign: whether it is [-], and the rest. *)
Definition takeSign (s : jsstring) : bool * jsstring :=
  match s with
  | c :: r =>
      if (c =? 45)%N then (true, r)
      else if (c =? 43)%N then (false, r)
      else (false, s)
  | [] => (false, s)
  end.

(** The value of an [ExponentPart] at the start of [s]; [0] when [s] does
    not start with a complete one ([e] or [E], an optional sign and at least
    one digit). *)
Definition exponentPart (s : jsstring) : Z :=
  match s with
  | c :: r =>
      if ((c =? 101) || (c =? 69))%N then
        let '(neg, r') := takeSign r in
        let '(ds, _) := takeDigits r' in
        if isEmpty ds then 0%Z
        else if neg then (- Z.of_N (digitsValue ds))%Z
             else Z.of_N (digitsValue ds)
      else 0%Z
  | [] => 0%Z
  end.

(** The built-in [parseFloat]: leading white space is skipped, the longest
    prefix that is a [StrDecimalLiteral] is read and its value rounded to a
    Number; [NaN] when there is no such prefix. *)
Definition parseFloat (s : jsstring) : number :=
  let '(neg, r) := takeSign (trimStart s) in
  if startsWith (lit "Infinity") r then S754_infinity neg
  else
    let '(ip, r1) := takeDigits r in
    let '(fp, r2) :=
      match r1 with
      | c :: r1' => if (c =? 46)%N then takeDigits r1' else ([], r1)
      | [] => ([], r1)
      end in
    if isEmpty ip && isEmpty fp then NaN
    else
      ofDecimal neg (digitsValue (ip ++ fp))
                (exponentPart r2 - Z.of_nat (List.length fp)).

End JsNumber.
Import JsNumber.

(** ** Displayed text *)

Module JsText.

(** What a piece of displayed text is.  The program fixes most of it
    character by character ([Chars]).  The other texts are made by the
    JavaScript engine, and ECMAScript does not fix their characters
    completely (the last digit of [Number::toString], the wording of the
    [TypeError] for a read of a property of [null] and of the one for a value
    that has no conversion to a primitive): they are kept as such. *)
Inductive text (value : Type) : Type :=
| Chars (s : jsstring)
| NumberToString (x : number)
| ValueToString (v : value)
| NullReadMessage (property : jsstring)
| NotPrimitiveMessage (v : value).

Arguments Chars {value} s.
Arguments NumberToString {value} x.
Arguments ValueToString {value} v.
Arguments NullReadMessage {value} property.
Arguments NotPrimitiveMessage {value} v.

(** The digits that [toFixed] prints for the integer [n]: padded with zeros
    to more than [f] digits, with a decimal point before the last [f]. *)
Definition fixedDigits (f : nat) (n : N) : jsstring :=
  let m := decimal n in
  let k := List.length m in
  let m := if (k <=? f)%nat then repeat 48%N (f + 1 - k) ++ m else m in
  let k := List.length m in
  if (f =? 0)%nat then m
  else firstn (k - f) m ++ lit "." ++ skipn (k - f) m.

(** The integer [n] for which [n / 10^f - m * 2^e] is closest to zero, the
    larger one when there are two. *)
Definition nearestScaled (f : nat) (m : positive) (e : Z) : N :=
  let scaled := (Zpos m * 10 ^ Z.of_nat f)%Z in
  Z.to_N (if (0 <=? e)%Z then scaled * 2 ^ e
          else (2 * scaled + 2 ^ (- e)) / 2 ^ (1 - e))%Z.

(** Whether [m * 2^e >= 10^21]. *)
Definition atLeast1e21 (m : positive) (e : Z) : bool :=
  (if 0 <=? e then 10 ^ 21 <=? Zpos m * 2 ^ e
   else 10 ^ 21 * 2 ^ (- e) <=? Zpos m)%Z.

(** [x.toFixed(f)] for [0 <= f <= 100].  From [10^21] on the method hands
    over to [Number::toString], sign included. *)
Definition toFixed {value} (f : nat) (x : number) : text value :=
  match x with
  | S754_nan => Chars (lit "NaN")
  | S754_infinity s => Chars (lit (if s then "-Infinity" else "Infinity"))
  | S754_zero _ => Chars (fixedDigits f 0)
  | S754_finite s m e =>
      if atLeast1e21 m e then NumberToString x
      else Chars ((if s then lit "-" else []) ++
                  fixedDigits f (nearestScaled f m e))
  end.

End JsText.
Import JsText.

(** ** JSON values and thrown values *)

(** What [response.json()] can resolve to. *)
#[warnings="-register-all"]
Inductive jvalue : Type :=
| JNull
| JBool (b : bool)
| JNumber (x : number)
| JString (s : jsstring)
| JArray (items : list jvalue)
| JObject (fields : list (jsstring * jvalue)).

Definition message : Type := text jvalue.

Fixpoint jsstring_eqb (a b : jsstring) : bool :=
  match a, b with
  | [], [] => true
  | x :: a', y :: b' => (x =? y)%N && jsstring_eqb a' b'
  | _, _ => false
  end.

(** The own property [key] of a parsed object; of two members with the same
    name [JSON.parse] keeps the later one. *)
Fixpoint getField (key : jsstring) (fields : list (jsstring * jvalue))
  : option jvalue :=
  match fields with
  | [] => None
  | (k, v) :: rest =>
      match getField key rest with
      | Some v' => Some v'
      | None => if jsstring_eqb k key then Some v else None
      end
  end.

(** [ToBoolean]; [None] is [undefined]. *)
Definition truthy (v : option jvalue) : bool :=
  match v with
  | None | Some JNull => false
  | Some (JBool b) => b
  | Some (JNumber x) =>
      match x with S754_zero _ | S754_nan => false | _ => true end
  | Some (JString s) => negb (isEmpty s)
  | Some (JArray _) | Some (JObject _) => true
  end.

(** Whether [ToString] of a JSON value returns.  For an object the
    conversion looks up [toString] and then [valueOf]: an own member of
    either name is never callable after [JSON.parse], and the inherited
    [valueOf] returns the object itself, so an object with an own member
    [toString] has no conversion and [ToString] throws a [TypeError].  An
    array converts by joining the conversions of its items that are not
    [null]. *)
Fixpoint convertible (v : jvalue) : bool :=
  match v with
  | JArray items => forallb convertible items
  | JObject fields =>
      match getField (lit "toString") fields with
      | Some _ => false
      | None => true
      end
  | JNull | JBool _ | JNumber _ | JString _ => true
  end.

(** [ToString] of a JSON value for which the conversion returns. *)
Definition toStringText (v : jvalue) : message :=
  match v with
  | JNull => Chars (lit "null")
  | JBool b => Chars (lit (if b then "true" else "false"))
  | JNumber x => NumberToString x
  | JString s => Chars s
  | JArray _ => ValueToString v
  | JObject _ => Chars (lit "[object Object]")
  end.

(** A thrown value: an instance of [Error] with its [message], or anything
    else. *)
Inductive thrown : Type :=
| ErrorObj (msg : message)
| NotAnError.

(** The outcome of evaluating an expression that may throw. *)
Inductive outcome (A : Type) : Type :=
| Return (a : A)
| Throw (e : thrown).

Arguments Return {A} a.
Arguments Throw {A} e.

Definition bindO {A B} (m : outcome A) (k : A -> outcome B) : outcome B :=
  match m with
  | Return a => k a
  | Throw e => Throw e
  end.

(** [try { m } catch (err) { h err }] *)
Definition catchO {A} (m : outcome A) (h : thrown -> outcome A) : outcome A :=
  match m with
  | Return a => Return a
  | Throw e => h e
  end.

Notation "'let!' x ':=' m 'in' k" := (bindO m (fun x => k))
  (at level 10, x name, m at level 100, k at level 200).

(** [l.map(f)] for a callback that may throw: the items are visited from left
    to right and the first throw ends the loop. *)
Fixpoint mapO {A B} (f : A -> outcome B) (l : list A) : outcome (list B) :=
  match l with
  | [] => Return []
  | a :: l' =>
      let! b := f a in
      let! bs := mapO f l' in
      Return (b :: bs)
  end.

(** [new Error(v)] for a JSON value [v]: the message is [ToString(v)], and
    when that conversion throws, its [TypeError] is what comes out. *)
Definition newError (v : jvalue) : outcome thrown :=
  if convertible v then Return (ErrorObj (toStringText v))
  else Throw (ErrorObj (NotPrimitiveMessage v)).

(** [err instanceof Error ? err.message : fallback] *)
Definition messageOr (fallback : string) (err : thrown) : message :=
  match err with
  | ErrorObj msg => msg
  | NotAnError => Chars (lit fallback)
  end.

(** ** The parser *)

(** The callback of [map] in [parseFeatures]. *)
Definition parseItem (item : jsstring) : outcome number :=
  let num := parseFloat (trim item) in
  if isNaN num then
    Throw (ErrorObj (Chars (lit "Invalid number: " ++ trim item)))
  else Return num.

Definition expectedMessage (n : nat) : message :=
  Chars (lit "Expected 46 features, but got " ++ decimal (N.of_nat n)).

(** [parseFeatures]: [Return None] is the [null] result. *)
Definition parseFeatures (inputText : jsstring)
  : outcome (option (list number)) :=
  catchO
    (let trimmed := trim inputText in
     if isEmpty trimmed then Return None
     else
       let! numbers := mapO parseItem (split trimmed) in
       if negb (List.length numbers =? 46)%nat then
         Throw (ErrorObj (expectedMessage (List.length numbers)))
       else Return (Some numbers))
    (fun err => Throw (ErrorObj (messageOr "Invalid input format" err))).

(** ** The component state and the network *)

(** The [useState] cells of [App] that [handlePredict] reads or writes.
    [result] holds whatever [response.json()] resolved to, [JNull] for
    [null]. *)
Record state : Type := {
  input : jsstring;
  loading : bool;
  result : jvalue;
  error : option message
}.

(** What [handlePredict] does that can be seen from outside, in order. *)
Inductive event : Type :=
| SetError (e : option message)
| SetResult (r : jvalue)
| SetLoading (b : bool)
| Fetch (features : list number).

(** How [await response.json()] ends. *)
Inductive jsonOutcome : Type :=
| JsonRejected (e : thrown)
| JsonResolved (v : jvalue).

Record response : Type := {
  ok : bool;
  status : N;
  statusText : jsstring;
  body : jsonOutcome
}.

(** How [await fetch(...)] ends. *)
Inductive fetchOutcome : Type :=
| FetchRejected (e : thrown)
| FetchResolved (r : response).

(** The prediction service, as a function of the [features] posted. *)
Definition network : Type := list number -> fetchOutcome.

(** The component state and the events so far. *)
Record world : Type := {
  ui : state;
  trace : list event
}.

(** Computations that read and write the component state, record events and
    may throw. *)
Definition M (A : Type) : Type := world -> outcome A * world.

Definition ret {A} (a : A) : M A := fun w => (Return a, w).

Definition bind {A B} (m : M A) (k : A -> M B) : M B :=
  fun w =>
    match m w with
    | (Return a, w') => k a w'
    | (Throw e, w') => (Throw e, w')
    end.

Definition throw {A} (e : thrown) : M A := fun w => (Throw e, w).

Definition liftO {A} (o : outcome A) : M A := fun w => (o, w).

(** [try { m } catch (err) { h err }] *)
Definition tryCatch {A} (m : M A) (h : thrown -> M A) : M A :=
  fun w =>
    match m w with
    | (Return a, w') => (Return a, w')
    | (Throw e, w') => h e w'
    end.

(** [try { m } finally { f }] *)
Definition tryFinally {A} (m : M A) (f : M unit) : M A :=
  fun w =>
    match m w with
    | (o, w') =>
        match f w' with
        | (Return _, w'') => (o, w'')
        | (Throw e, w'') => (Throw e, w'')
        end
    end.

Notation "x <- m ;; k" := (bind m (fun x => k))
  (at level 61, m at next level, right associativity).
Notation "m ;; k" := (bind m (fun _ => k))
  (at level 61, right associativity).

Definition emit (e : event) (w : world) : world :=
  {| ui := ui w; trace := trace w ++ [e] |}.

Definition setError (e : option message) : M unit :=
  fun w =>
    let st := ui w in
    (Return tt,
     emit (SetError e)
          {| ui := {| input := input st; loading := loading st;
                      result := result st; error := e |};
             trace := trace w |}).

Definition setResult (r : jvalue) : M unit :=
  fun w =>
    let st := ui w in
    (Return tt,
     emit (SetResult r)
          {| ui := {| input := input st; loading := loading st;
                      result := r; error := error st |};
             trace := trace w |}).

Definition setLoading (b : bool) : M unit :=
  fun w =>
    let st := ui w in
    (Return tt,
     emit (SetLoading b)
          {| ui := {| input := input st; loading := b;
                      result := result st; error := error st |};
             trace := trace w |}).

Definition getInput : M jsstring := fun w => (Return (input (ui w)), w).

(** [await fetch(url, { method: 'POST', ..., body: JSON.stringify({ features }) })] *)
Definition fetch (net : network) (features : list number) : M response :=
  fun w =>
    let w' := emit (Fetch features) w in
    match net features with
    | FetchRejected e => (Throw e, w')
    | FetchResolved r => (Return r, w')
    end.

(** [await response.json()] *)
Definition json (r : response) : M jvalue :=
  match body r with
  | JsonRejected e => throw e
  | JsonResolved v => ret v
  end.

(** [v.detail]: reading a property of [null] throws a [TypeError]; a value
    that is not an object has no such property. *)
Definition readDetail (v : jvalue) : M (option jvalue) :=
  match v with
  | JNull => throw (ErrorObj (NullReadMessage (lit "detail")))
  | JObject fields => ret (getField (lit "detail") fields)
  | _ => ret None
  end.

Definition pleaseEnter : message :=
  Chars (lit "Please enter exactly 46 comma-separated numbers").

Definition httpMessage (r : response) : message :=
  Chars (lit "HTTP " ++ decimal (status r) ++ lit ": " ++ statusText r).

(** [handlePredict] *)
Definition handlePredict (net : network) : M unit :=
  setError None ;;
  setResult JNull ;;
  tryFinally
    (tryCatch
       (text <- getInput ;;
        features <- liftO (parseFeatures text) ;;
        match features with
        | None => setError (Some pleaseEnter)
        | Some features =>
            setLoading true ;;
            response <- fetch net features ;;
            if negb (ok response) then
              errorData <- json response ;;
              detail <- readDetail errorData ;;
              err <- liftO (match detail with
                            | Some d =>
                                if truthy detail then newError d
                                else Return (ErrorObj (httpMessage response))
                            | None => Return (ErrorObj (httpMessage response))
                            end) ;;
              throw err
            else
              data <- json response ;;
              setResult data
        end)
       (fun err =>
          setError (Some (messageOr "An unexpected error occurred" err))))
    (setLoading false).

(** One submission: the state and the events when [handlePredict] is done. *)
Definition submit (net : network) (st : state) : world :=
  snd (handlePredict net {| ui := st; trace := [] |}).

(** ** Rendering of a result *)

(** The numeric literals of the source. *)
Definition n0_3 : number := ofDecimal false 3 (-1).
Definition n0_7 : number := ofDecimal false 7 (-1).
Definition n1 : number := ofN 1.
Definition n100 : number := ofN 100.

Record riskLevel : Type := {
  level : jsstring;
  color : jsstring;
  bgColor : jsstring;
  borderColor : jsstring
}.

(** [getRiskLevel] *)
Definition getRiskLevel (probability : number) : riskLevel :=
  if lt probability n0_3 then
    {| level := lit "Low"; color := lit "text-emerald-600";
       bgColor := lit "bg-emerald-50"; borderColor := lit "border-emerald-200" |}
  else if lt probability n0_7 then
    {| level := lit "Medium"; color := lit "text-amber-600";
       bgColor := lit "bg-amber-50"; borderColor := lit "border-amber-200" |}
  else
    {| level := lit "High"; color := lit "text-red-600";
       bgColor := lit "bg-red-50"; borderColor := lit "border-red-200" |}.

(** The gradient classes of the risk bar, the conditional expression in the
    [className] of the bar. *)
Definition barGradient (probability : number) : jsstring :=
  if gt probability n0_7 then lit "bg-gradient-to-r from-red-500 to-red-600"
  else if gt probability n0_3 then
    lit "bg-gradient-to-r from-amber-500 to-amber-600"
  else lit "bg-gradient-to-r from-emerald-500 to-emerald-600".

(** The sentence under the risk bar. *)
Definition advice (probability : number) : jsstring :=
  if gt probability n0_7 then
    [0x26A0; 0xFE0F]%N
    ++ lit " High probability of default - recommend loan rejection or additional collateral"
  else if gt probability n0_3 then
    [0x26A1]%N
    ++ lit " Moderate risk - consider additional verification or adjusted terms"
  else [0x2705]%N ++ lit " Low default risk - loan approval recommended".

(** The interface [PredictionResult]. *)
Record PredictionResult : Type := {
  prediction : number;
  default_probability : number
}.

(** What the result section shows for a [PredictionResult]: the texts and
    the classes that depend on it.  Texts that JSX builds from several
    children are the list of the children. *)
Record view : Type := {
  predictionText : jsstring;
  predictionClass : jsstring;
  classification : jsstring;
  probabilityText : list message;
  riskClass : jsstring;
  riskText : list message;
  barClass : jsstring;
  barWidth : list message;
  adviceText : jsstring
}.

Definition resultView (r : PredictionResult) : view :=
  let isDefault := strictEq (prediction r) n1 in
  let p := default_probability r in
  {| predictionText := lit (if isDefault then "Default Risk" else "Safe Loan");
     predictionClass :=
       lit (if isDefault then "text-red-400" else "text-emerald-400");
     classification :=
       lit (if isDefault then "High Risk (1)" else "Low Risk (0)");
     probabilityText := [toFixed 1 (mul p n100); Chars (lit "%")];
     riskClass := lit "text-sm font-medium " ++ color (getRiskLevel p);
     riskText := [Chars (level (getRiskLevel p)); Chars (lit " Risk Level")];
     barClass :=
       lit "h-full rounded-full transition-all duration-1000 ease-out "
       ++ barGradient p;
     barWidth := [NumberToString (mul p n100); Chars (lit "%")];
     adviceText := advice p |}.

(** A parsed body of the declared type: an object whose [prediction] and
    [default_probability] are numbers. *)
Definition asPredictionResult (v : jvalue) : option PredictionResult :=
  match v with
  | JObject fields =>
      match getField (lit "prediction") fields,
            getField (lit "default_probability") fields with
      | Some (JNumber c), Some (JNumber p) =>
          Some {| prediction := c; default_probability := p |}
      | _, _ => None
      end
  | _ => None
  end.

(** The result section for the stored [result], when it has the declared
    type.  (On a value outside [PredictionResult] the component coerces what
    it finds; that is not modelled.) *)
Definition render (st : state) : option view :=
  option_map resultView (asPredictionResult (result st)).

(** The characters of a text whose pieces are all fixed by the program. *)
Fixpoint flatten (pieces : list message) : option jsstring :=
  match pieces with
  | [] => Some []
  | Chars s :: rest => option_map (app s) (flatten rest)
  | _ :: _ => None
  end.

(** [disabled] of the submit button: the form cannot be submitted from the
    page while a request is pending or while the text is blank. *)
Definition submitDisabled (st : state) : bool :=
  loading st || isEmpty (trim (input st)).

(** ** Vocabulary of the statements *)

(** The comma-separated tokens of a text, each one trimmed. *)
Definition tokens (s : jsstring) : list jsstring := map trim (split s).

(** A trimmed token that [parseFloat] does not read as a number. *)
Definition notNumber (tok : jsstring) : bool := isNaN (parseFloat tok).

(** [f] applied to the last item of a list. *)
Fixpoint mapLast {A} (f : A -> A) (l : list A) : list A :=
  match l with
  | [] => []
  | [x] => [f x]
  | x :: l' => x :: mapLast f l'
  end.

(** An idle form holding the text [s]. *)
Definition idle (s : jsstring) : state :=
  {| input := s; loading := false; result := JNull; error := None |}.

Definition isFetch (e : event) : bool :=
  match e with Fetch _ => true | _ => false end.

Definition isLoadingOn (e : event) : bool :=
  match e with SetLoading true => true | _ => false end.

(** [x <= y] on numbers. *)
Definition le (x y : number) : bool := SFleb x y.

(** A prediction service that cannot be reached. *)
Definition offline : network := fun _ => FetchRejected NotAnError.

(** What [handlePredict] throws on a response that is not OK. *)
Definition httpError (r : response) : message :=
  match body r with
  | JsonRejected e => messageOr "An unexpected error occurred" e
  | JsonResolved JNull => NullReadMessage (lit "detail")
  | JsonResolved (JObject fields) =>
      match getField (lit "detail") fields with
      | Some d =>
          if truthy (Some d) then
            if convertible d then toStringText d else NotPrimitiveMessage d
          else httpMessage r
      | None => httpMessage r
      end
  | JsonResolved _ => httpMessage r
  end.

(** How a request ends for the form: with an error text or with data. *)
Definition answer (o : fetchOutcome) : message + jvalue :=
  match o with
  | FetchRejected e => inl (messageOr "An unexpected error occurred" e)
  | FetchResolved r =>
      if ok r then
        match body r with
        | JsonRejected e => inl (messageOr "An unexpected error occurred" e)
        | JsonResolved data => inr data
        end
      else inl (httpError r)
  end.

(** The world after a submission of the form [st]: the events [middle]
    between the two resets and the final [setLoading(false)], and the result
    and error left in the state. *)
Definition finished (st : state) (middle : list event)
           (res : jvalue) (err : option message) : world :=
  {| ui := {| input := input st; loading := false;
              result := res; error := err |};
     trace := [SetError None; SetResult JNull] ++ middle
              ++ [SetLoading false] |}.

(** The placeholder of the text area, 46 numbers. *)
Definition placeholder : jsstring :=
  lit "0.5, 1.2, -0.8, 2.1, 0.0, 1.5, -1.2, 0.9, 1.8, 0.3, -0.5, 1.1, 0.7, -0.2, 1.4, 0.6, -0.9, 1.3, 0.8, -0.1, 1.0, 0.4, -0.7, 1.6, 0.2, -0.3, 1.9, 0.1, -0.6, 1.7, 0.9, -0.4, 1.2, 0.5, -0.8, 1.8, 0.3, -0.2, 1.4, 0.7, -0.5, 1.1, 0.6, -0.9, 1.5, 0.8".

(** The numbers that the placeholder holds. *)
Definition placeholderFeatures : list number :=
  map (fun tok => parseFloat (trim tok)) (split placeholder).

(** A text of 46 tokens, the first two of them infinite. *)
Definition infiniteInput : jsstring :=
  lit "Infinity,-1e999" ++ List.concat (repeat (lit ",1") 44).

(** The bodies [{prediction: 1, default_probability: 0.82}] and
    [{prediction: 0, default_probability: 0.12}], and a successful response
    that carries a body. *)
Definition defaultBody : jvalue :=
  JObject [(lit "prediction", JNumber (ofN 1));
           (lit "default_probability", JNumber (ofDecimal false 82 (-2)))].

Definition safeBody : jvalue :=
  JObject [(lit "prediction", JNumber (ofN 0));
           (lit "default_probability", JNumber (ofDecimal false 12 (-2)))].

Definition okResponse (data : jvalue) : response :=
  {| ok := true; status := 200; statusText := lit "OK";
     body := JsonResolved data |}.

(** A response that is not OK. *)
Definition errorResponse (code : N) (reason : string) (b : jsonOutcome)
  : response :=
  {| ok := false; status := code; statusText := lit reason; body := b |}.

(** ** The rest of the form *)

(** The counter under the text area,
    [input.split(',').filter(x => x.trim()).length]. *)
Definition featureCount (text : jsstring) : nat :=
  List.length (filter (fun x => negb (isEmpty (trim x))) (split text)).

(** [disabled] of the text area. *)
Definition textareaDisabled (st : state) : bool := loading st.

(** The result panel, [{result && (...)}]. *)
Definition resultShown (st : state) : bool := truthy (Some (result st)).

(** The error panel, [{error && (...)}]: shown for a text that is not empty.
    [None] when the text is one that the engine words. *)
Definition errorShown (st : state) : option bool :=
  match error st with
  | None => Some false
  | Some (Chars s) => Some (negb (isEmpty s))
  | Some _ => None
  end.

(** The results section, [{(result || error) && (...)}]. *)
Definition resultsShown (st : state) : option bool :=
  if resultShown st then Some true else errorShown st.

(** The state after one of the updates that [handlePredict] makes; a request
    changes nothing in the state. *)
Definition applyEvent (st : state) (e : event) : state :=
  match e with
  | SetError err =>
      {| input := input st; loading := loading st;
         result := result st; error := err |}
  | SetResult r =>
      {| input := input st; loading := loading st;
         result := r; error := error st |}
  | SetLoading b =>
      {| input := input st; loading := b;
         result := result st; error := error st |}
  | Fetch _ => st
  end.

(** The state after a run of updates. *)
Definition replay (st : state) (events : list event) : state :=
  fold_left applyEvent events st.

(** The number of commas of a text. *)
Definition commas (text : jsstring) : nat := count_occ N.eq_dec text comma.

(** The numbers for which [toFixed] fixes every character itself: the zeros
    and the finite numbers below [10^21] in magnitude. *)
Definition inFixedRange (x : number) : bool :=
  match x with
  | S754_zero _ => true
  | S754_finite _ m e => negb (atLeast1e21 m e)
  | S754_infinity _ | S754_nan => false
  end.

(** The three sentences that [advice] chooses from. *)
Definition adviceReject : jsstring :=
  [0x26A0; 0xFE0F]%N
  ++ lit " High probability of default - recommend loan rejection or additional collateral".

Definition adviceVerify : jsstring :=
  [0x26A1]%N
  ++ lit " Moderate risk - consider additional verification or adjusted terms".

Definition adviceApprove : jsstring :=
  [0x2705]%N ++ lit " Low default risk - loan approval recommended".

(** The start that a token must have: after white space and one optional
    sign, either [Infinity], or a digit, or a point and a digit. *)
Definition startsNumber (s : jsstring) : bool :=
  let r := snd (takeSign (trimStart s)) in
  startsWith (lit "Infinity") r
  || match r with
     | d :: r' =>
         isDigit d
         || (d =? 46)%N && match r' with
                           | d' :: _ => isDigit d'
                           | [] => false
                           end
     | [] => false
     end.





(** How [JSON.stringify] writes a number: a finite one as [Number::toString]
    does, which is [0] for both zeros, and any other as [null]. *)
Definition stringifyNumber (x : number) : message :=
  match x with
  | S754_zero _ => Chars (lit "0")
  | S754_finite _ _ _ => NumberToString x
  | S754_infinity _ | S754_nan => Chars (lit "null")
  end.

(** The pieces of a list with a comma between each two. *)
Fixpoint commaSeparated (pieces : list message) : list message :=
  match pieces with
  | [] => []
  | [piece] => [piece]
  | piece :: rest => piece :: Chars (lit ",") :: commaSeparated rest
  end.

(** [JSON.stringify({ features })], the body of the request that the event
    [Fetch features] stands for: an object with the one member [features],
    an array. *)
Definition postedBody (features : list number) : list message :=
  Chars ([123; 34]%N ++ lit "features" ++ [34; 58; 91]%N)
  :: commaSeparated (map stringifyNumber features) ++ [Chars (lit "]}")].

(** An entry of the posted array for an element of the vector. *)
Definition postedAs (x : number) (entry : message) : Prop :=
  match x with
  | S754_zero _ => entry = Chars (lit "0")
  | S754_finite _ _ _ => entry = NumberToString x
  | S754_infinity _ => entry = Chars (lit "null")
  | S754_nan => False
  end.

(** * Properties *)

(** ** The built-ins on sample inputs *)

Section Samples.

(** [0.3] is the double [0x3FD3333333333333], [0.7] is
    [0x3FE6666666666666]. *)
Example parseFloat_thresholds :
  parseFloat (lit "0.3") = S754_finite false 0x13333333333333 (-54) /\
  parseFloat (lit "0.7") = S754_finite false 0x16666666666666 (-53) /\
  parseFloat (lit "0.3") = n0_3 /\ parseFloat (lit "0.7") = n0_7.
Proof. vm_compute. repeat split. Qed.

Example parseFloat_prefixes :
  parseFloat (lit " 12.5abc") = parseFloat (lit "12.5") /\
  parseFloat (lit "1e") = n1 /\ parseFloat (lit "1e2") = n100 /\
  parseFloat (lit ".5") = parseFloat (lit "0.5") /\
  parseFloat (lit "-0") = S754_zero true /\
  parseFloat (lit "9007199254740993") = parseFloat (lit "9007199254740992") /\
  parseFloat (lit "4.9e-324") = S754_finite false 1 (-1074) /\
  parseFloat (lit "1.7976931348623157e308") =
    S754_finite false 0x1FFFFFFFFFFFFF 971 /\
  parseFloat (lit "1.7976931348623159e308") = Infinity /\
  parseFloat (lit "-Infinityx") = S754_infinity true.
Proof. vm_compute. repeat split. Qed.

Example parseFloat_not_a_number :
  map (fun s => isNaN (parseFloat (lit s)))
      [EmptyString; "."; "-"; "abc"; "e5"; ".e5"; "Inf"; "x1"; "NaN"]%string
  = [true; true; true; true; true; true; true; true; true].
Proof. vm_compute. reflexivity. Qed.

Example split_trim_sample :
  map trim (split (lit " 1 ,2,, x ")) = [lit "1"; lit "2"; []; lit "x"] /\
  split [] = [[]] /\ trim (lit "  ") = [].
Proof. vm_compute. repeat split. Qed.

Example toFixed_samples :
  map (fun s => flatten [toFixed 1 (parseFloat (lit s))])
      ["0.25"; "0.35"; "-1.45"; "99.95"; "-0.01"; "0"; "Infinity"]%string
  = map (fun s => Some (lit s))
        ["0.3"; "0.3"; "-1.4"; "100.0"; "-0.0"; "0.0"; "Infinity"]%string.
Proof. vm_compute. reflexivity. Qed.

End Samples.

(** ** Strings *)

Section StringFacts.

Lemma comma_not_space c : isWhiteSpace c = true -> (c =? comma)%N = false.
Proof.
  intros H. destruct (N.eqb_spec c comma) as [->|]; [|reflexivity].
  discriminate H.
Qed.

Lemma split_nonempty s : split s <> [].
Proof.
  destruct s as [|c r]; simpl; [discriminate|].
  destruct (c =? comma)%N; [discriminate|].
  destruct (split r); discriminate.
Qed.

Lemma split_cons c r :
  split (c :: r) =
  if (c =? comma)%N then [] :: split r
  else match split r with
       | [] => [[c]]
       | h :: t => (c :: h) :: t
       end.
Proof. reflexivity. Qed.

Lemma split_single_nil s : split s = [[]] -> s = [].
Proof.
  destruct s as [|c r]; [reflexivity|]. simpl.
  destruct (c =? comma)%N.
  - intros H. injection H as H. now apply split_nonempty in H.
  - destruct (split r); discriminate.
Qed.

Lemma trimStart_idem s : trimStart (trimStart s) = trimStart s.
Proof.
  induction s as [|c r IH]; simpl; [reflexivity|].
  destruct (isWhiteSpace c) eqn:E; [exact IH|].
  simpl. now rewrite E.
Qed.

Lemma trimEnd_cons c r :
  trimEnd (c :: r) =
  match trimEnd r with
  | [] => if isWhiteSpace c then [] else [c]
  | r' => c :: r'
  end.
Proof. reflexivity. Qed.

Lemma trimEnd_idem s : trimEnd (trimEnd s) = trimEnd s.
Proof.
  induction s as [|c r IH]; [reflexivity|].
  rewrite trimEnd_cons.
  destruct (trimEnd r) as [|d r'] eqn:E.
  - destruct (isWhiteSpace c) eqn:W; [reflexivity|].
    simpl. now rewrite W.
  - rewrite trimEnd_cons, IH. reflexivity.
Qed.

Lemma trimStart_trimEnd s : trimStart (trimEnd s) = trimEnd (trimStart s).
Proof.
  induction s as [|c r IH]; [reflexivity|].
  rewrite trimEnd_cons. simpl trimStart at 2.
  destruct (isWhiteSpace c) eqn:W.
  - destruct (trimEnd r) as [|d r'] eqn:E.
    + rewrite <- IH. reflexivity.
    + rewrite <- IH. simpl. now rewrite W.
  - rewrite trimEnd_cons.
    destruct (trimEnd r) as [|d r'] eqn:E; rewrite ?W; simpl; now rewrite W.
Qed.

Lemma trim_trimStart s : trim (trimStart s) = trim s.
Proof. unfold trim. now rewrite trimStart_idem. Qed.

Lemma trim_trimEnd s : trim (trimEnd s) = trim s.
Proof. unfold trim. now rewrite trimStart_trimEnd, trimEnd_idem. Qed.

Lemma trim_idem s : trim (trim s) = trim s.
Proof. unfold trim at 2. now rewrite trim_trimEnd, trim_trimStart. Qed.

Lemma split_trimStart s :
  split (trimStart s) =
  match split s with
  | [] => []
  | h :: t => trimStart h :: t
  end.
Proof.
  induction s as [|c r IH]; [reflexivity|].
  simpl trimStart. destruct (isWhiteSpace c) eqn:W.
  - rewrite IH. simpl. rewrite (comma_not_space _ W).
    destruct (split r) as [|h t] eqn:S; [now apply split_nonempty in S|].
    simpl. now rewrite W.
  - simpl. destruct (c =? comma)%N; [reflexivity|].
    destruct (split r); simpl; now rewrite W.
Qed.

Lemma mapLast_cons {A} (f : A -> A) x l :
  l <> [] -> mapLast f (x :: l) = x :: mapLast f l.
Proof. destruct l; [congruence|reflexivity]. Qed.

Lemma split_trimEnd s : split (trimEnd s) = mapLast trimEnd (split s).
Proof.
  induction s as [|c r IH]; [reflexivity|].
  rewrite trimEnd_cons.
  destruct (trimEnd r) as [|d r'] eqn:E.
  - (* nothing but white space follows [c] *)
    simpl in IH. simpl split at 2.
    destruct (split r) as [|h [|h' t]] eqn:S; simpl in IH; try discriminate.
    + injection IH as IH.
      destruct (c =? comma)%N eqn:C.
      * apply N.eqb_eq in C. subst c.
        change (isWhiteSpace comma) with false.
        simpl. rewrite <- IH. reflexivity.
      * cbn [mapLast]. rewrite trimEnd_cons, <- IH.
        destruct (isWhiteSpace c); simpl; now rewrite ?C.
    + destruct t; discriminate.
  - rewrite (split_cons c (d :: r')), (split_cons c r).
    destruct (c =? comma)%N.
    + rewrite IH, mapLast_cons by apply split_nonempty. reflexivity.
    + rewrite IH.
      destruct (split r) as [|h [|h' t]] eqn:S.
      * now apply split_nonempty in S.
      * cbn [mapLast] in *. rewrite trimEnd_cons.
        destruct (trimEnd h) eqn:F; [|reflexivity].
        apply split_single_nil in IH. discriminate.
      * reflexivity.
Qed.

Lemma map_trim_mapLast l : map trim (mapLast trimEnd l) = map trim l.
Proof.
  induction l as [|x [|y l'] IH]; [reflexivity| |].
  - simpl. now rewrite trim_trimEnd.
  - rewrite mapLast_cons by discriminate.
    rewrite !(map_cons trim x), IH. reflexivity.
Qed.

(** Trimming the whole text first does not change the trimmed tokens. *)
Lemma tokens_trim s : map trim (split (trim s)) = tokens s.
Proof.
  unfold tokens, trim at 2.
  rewrite split_trimEnd, map_trim_mapLast, split_trimStart.
  destruct (split s) as [|h t]; [reflexivity|].
  simpl. now rewrite trim_trimStart.
Qed.




End StringFacts.

(** ** The parser *)

Section ParserFacts.

Lemma mapO_parseItem l :
  mapO parseItem l =
  match find notNumber (map trim l) with
  | Some tok => Throw (ErrorObj (Chars (lit "Invalid number: " ++ tok)))
  | None => Return (map parseFloat (map trim l))
  end.
Proof.
  induction l as [|item l IH]; [reflexivity|].
  cbn [mapO map find]. unfold parseItem at 1, notNumber at 1.
  destruct (isNaN (parseFloat (trim item))); [reflexivity|].
  cbn [bindO]. rewrite IH.
  destruct (find notNumber (map trim l)); reflexivity.
Qed.

(** [parseFeatures] without its control flow: what it returns or throws,
    read off the trimmed tokens of the text. *)
Lemma parseFeatures_eq s :
  parseFeatures s =
  if isEmpty (trim s) then Return None
  else match find notNumber (tokens s) with
       | Some tok => Throw (ErrorObj (Chars (lit "Invalid number: " ++ tok)))
       | None =>
           if (List.length (tokens s) =? 46)%nat then
             Return (Some (map parseFloat (tokens s)))
           else Throw (ErrorObj (expectedMessage (List.length (tokens s))))
       end.
Proof.
  unfold parseFeatures.
  destruct (isEmpty (trim s)); [reflexivity|].
  rewrite mapO_parseItem, tokens_trim.
  destruct (find notNumber (tokens s)); [reflexivity|].
  cbn [bindO catchO]. rewrite length_map.
  destruct (List.length (tokens s) =? 46)%nat; reflexivity.
Qed.

Lemma find_notNumber_None l :
  find notNumber (map trim l) = None <->
  Forall (fun tok => notNumber (trim tok) = false) l.
Proof.
  induction l as [|tok l IH]; cbn [map find].
  - split; [constructor|reflexivity].
  - destruct (notNumber (trim tok)) eqn:E; split; intros H.
    + discriminate.
    + inversion H; congruence.
    + constructor; [exact E|now apply IH].
    + inversion H; now apply IH.
Qed.

(** A token that [find] reports is the first one that is not a number. *)
Lemma find_notNumber_Some l t :
  find notNumber (map trim l) = Some t ->
  exists before tok after,
    l = before ++ tok :: after /\ t = trim tok /\
    notNumber (trim tok) = true /\
    Forall (fun tok' => notNumber (trim tok') = false) before.
Proof.
  induction l as [|tok l IH]; cbn [map find]; [discriminate|].
  destruct (notNumber (trim tok)) eqn:E; intros H.
  - injection H as <-. exists [], tok, l. repeat split; auto.
  - destruct (IH H) as (before & tok' & after & -> & -> & Hn & Hb).
    exists (tok :: before), tok', after. repeat split; auto.
Qed.

(** The tokens of a text are all numbers when a run of the check says
    so. *)
Lemma all_numbers_check l :
  forallb (fun tok => negb (notNumber (trim tok))) l = true ->
  Forall (fun tok => isNaN (parseFloat (trim tok)) = false) l.
Proof.
  intros F. apply Forall_forall. intros tok Hin.
  rewrite forallb_forall in F. specialize (F tok Hin).
  unfold notNumber in F. now destruct (isNaN (parseFloat (trim tok))).
Qed.

Lemma tokens_length s : List.length (tokens s) = List.length (split s).
Proof. apply length_map. Qed.

(** A blank text has one token, and it is blank. *)
Lemma blank_tokens s : isEmpty (trim s) = true -> tokens s = [[]].
Proof.
  intros H. rewrite <- tokens_trim.
  destruct (trim s); [reflexivity|discriminate].
Qed.

Lemma blank_single s :
  isEmpty (trim s) = true -> exists tok, split s = [tok] /\ trim tok = [].
Proof.
  intros H. apply blank_tokens in H. unfold tokens in H.
  destruct (split s) as [|tok [|tok' l]]; try discriminate.
  injection H as H. now exists tok.
Qed.

Lemma parseFeatures_success s v :
  parseFeatures s = Return (Some v) <->
  List.length (split s) = 46%nat /\
  Forall (fun tok => notNumber (trim tok) = false) (split s) /\
  v = map (fun tok => parseFloat (trim tok)) (split s).
Proof.
  rewrite parseFeatures_eq.
  destruct (isEmpty (trim s)) eqn:B.
  - split; [discriminate|]. intros (L & _).
    apply blank_tokens in B. rewrite <- tokens_length, B in L. discriminate.
  - destruct (find notNumber (tokens s)) as [t|] eqn:F.
    + split; [discriminate|]. intros (_ & V & _).
      apply find_notNumber_None in V. unfold tokens in F. congruence.
    + apply find_notNumber_None in F.
      destruct (List.length (tokens s) =? 46)%nat eqn:L.
      * apply Nat.eqb_eq in L. rewrite tokens_length in L.
        unfold tokens. rewrite map_map. split.
        -- intros H. injection H as <-. auto.
        -- intros (_ & _ & ->). reflexivity.
      * apply Nat.eqb_neq in L. rewrite tokens_length in L.
        split; [discriminate|]. intros (L' & _). contradiction.
Qed.

End ParserFacts.

(** ** The submit handler *)

Section HandlerFacts.

Variable net : network.

(** [handlePredict] without its control flow. *)
Lemma submit_eq st :
  submit net st =
  match parseFeatures (input st) with
  | Return None =>
      finished st [SetError (Some pleaseEnter)] JNull (Some pleaseEnter)
  | Throw e =>
      let msg := messageOr "An unexpected error occurred" e in
      finished st [SetError (Some msg)] JNull (Some msg)
  | Return (Some features) =>
      match answer (net features) with
      | inl msg =>
          finished st [SetLoading true; Fetch features; SetError (Some msg)]
                   JNull (Some msg)
      | inr data =>
          finished st [SetLoading true; Fetch features; SetResult data]
                   data None
      end
  end.
Proof.
  destruct st as [text ld res err].
  unfold submit, handlePredict, finished.
  cbv [bind tryFinally tryCatch setError setResult setLoading getInput
       liftO emit ui trace input loading result error app snd].
  destruct (parseFeatures text) as [[features|]|e]; try reflexivity.
  cbv [fetch emit ui trace app answer].
  destruct (net features) as [e|r]; [reflexivity|].
  unfold httpError, json, readDetail.
  destruct (ok r); cbv [negb];
    destruct (body r) as [e|v]; try reflexivity.
  destruct v as [| | | | |fields]; try reflexivity.
  cbv [ret throw liftO].
  destruct (getField (lit "detail") fields) as [d|]; [|reflexivity].
  unfold newError.
  destruct (truthy (Some d)); [|reflexivity].
  destruct (convertible d); reflexivity.
Qed.

End HandlerFacts.

(** ** Comparisons with the two thresholds *)

Section ThresholdFacts.

Lemma n0_3_eq : n0_3 = S754_finite false 5404319552844595 (-54).
Proof. vm_compute. reflexivity. Qed.

Lemma n0_7_eq : n0_7 = S754_finite false 6305039478318694 (-53).
Proof. vm_compute. reflexivity. Qed.

Lemma SFcompare_antisym x y :
  SFcompare y x = option_map CompOpp (SFcompare x y).
Proof.
  destruct x as [sx|sx| |sx mx ex], y as [sy|sy| |sy my ey];
    try destruct sx; try destruct sy; try reflexivity;
    cbn [SFcompare option_map]; f_equal;
    rewrite (Z.compare_antisym ex ey);
    destruct (ex ?= ey)%Z; cbn [CompOpp]; try reflexivity;
    rewrite (Pos.compare_cont_antisym mx my Eq); reflexivity.
Qed.

Lemma SFcompare_defined x y :
  isNaN x = false -> isNaN y = false -> SFcompare x y <> None.
Proof.
  destruct x as [sx|sx| |sx mx ex], y as [sy|sy| |sy my ey];
    try discriminate; intros _ _;
    try destruct sx; try destruct sy; discriminate.
Qed.

Lemma SFcompare_eq_finite x s m e :
  SFcompare x (S754_finite s m e) = Some Eq -> x = S754_finite s m e.
Proof.
  destruct x as [sx|sx| |sx mx ex]; cbn [SFcompare];
    try (destruct sx; discriminate); try (destruct s; discriminate).
  destruct sx, s; try discriminate;
    destruct (Z.compare_spec ex e) as [->| |]; try discriminate;
    intros H; injection H as H.
  - apply (f_equal CompOpp) in H. rewrite CompOpp_involutive in H.
    cbn in H. apply Pos.compare_eq in H. now subst.
  - apply Pos.compare_eq in H. now subst.
Qed.

(** Below [0.3] is below [0.7]. *)
Lemma below_low_below_high p :
  SFcompare p n0_3 = Some Lt -> SFcompare p n0_7 = Some Lt.
Proof.
  rewrite n0_3_eq, n0_7_eq.
  destruct p as [s|s| |s m e]; cbn [SFcompare]; try congruence;
    try (destruct s; congruence).
  destruct s; [reflexivity|].
  destruct (Z.compare_spec e (-54)) as [->| |]; try discriminate.
  - reflexivity.
  - destruct (Z.compare_spec e (-53)); try lia. reflexivity.
Qed.

End ThresholdFacts.

(** Label and bar of [p], once [p] has been compared with both thresholds. *)
Ltac by_comparisons p E3 E7 :=
  unfold getRiskLevel, barGradient, lt, gt, SFltb;
  rewrite (SFcompare_antisym p n0_3), (SFcompare_antisym p n0_7);
  rewrite E3, E7; split; reflexivity.

(** * The claims *)

(** ** Parsing *)

(** C1: [parseFeatures] returns a vector exactly on the texts that have 46
    comma-separated tokens, each of which [parseFloat] reads as a number once
    trimmed, and the vector is then the 46 values in the order of the tokens;
    on every other text it returns no vector at all. *)
Theorem parseFeatures_all_or_nothing (inputText : jsstring) (v : list number) :
  parseFeatures inputText = Return (Some v) <->
  List.length (split inputText) = 46%nat /\
  Forall (fun tok => isNaN (parseFloat (trim tok)) = false) (split inputText) /\
  v = map (fun tok => parseFloat (trim tok)) (split inputText).
Proof. exact (parseFeatures_success inputText v). Qed.

Lemma parseFeatures_placeholder :
  (List.length (split placeholder) = 46%nat /\
   forallb (fun tok => negb (isNaN (parseFloat (trim tok))))
           (split placeholder) = true) /\
  parseFeatures placeholder = Return (Some placeholderFeatures).
Proof.
  split; [split; vm_compute; reflexivity|].
  apply (proj2 (parseFeatures_all_or_nothing placeholder placeholderFeatures)).
  split; [vm_compute; reflexivity|]. split; [|reflexivity].
  apply all_numbers_check. vm_compute. reflexivity.
Defined.

(** C4, as the code has it: a vector that [parseFeatures] returns has 46
    elements and none of them is [NaN]; an element may be infinite. *)
Theorem parseFeatures_vector_not_NaN (inputText : jsstring) (v : list number) :
  parseFeatures inputText = Return (Some v) ->
  List.length v = 46%nat /\ Forall (fun x => isNaN x = false) v.
Proof.
  intros H. apply parseFeatures_success in H. destruct H as (L & V & ->).
  split; [now rewrite length_map|].
  apply Forall_map. exact V.
Qed.

Lemma parseFeatures_vector_not_NaN_placeholder :
  parseFeatures placeholder = Return (Some placeholderFeatures) /\
  List.length placeholderFeatures = 46%nat /\
  Forall (fun x => isNaN x = false) placeholderFeatures.
Proof.
  assert (H : parseFeatures placeholder = Return (Some placeholderFeatures))
    by (vm_compute; reflexivity).
  split; [exact H|].
  exact (parseFeatures_vector_not_NaN placeholder H).
Defined.

(** C4 fails as stated: of the 46 tokens of [infiniteInput] the first is
    [Infinity] and the second overflows, and the vector returned holds the two
    infinite values. *)
Lemma parseFeatures_returns_infinity :
  parseFeatures infiniteInput =
    Return (Some (S754_infinity false :: S754_infinity true :: repeat n1 44)) /\
  isFinite (S754_infinity false) = false /\
  isFinite (S754_infinity true) = false.
Proof. vm_compute. repeat split. Qed.

(** C2, as the code has it: when every token of the text is a number and
    there are [n] of them, [n] other than 46, [parseFeatures] throws and the
    error shown is "Expected 46 features, but got n" with no request made.
    A blank text is not such an input: [parseFeatures] returns [null] for it
    and the error shown is a fixed sentence. *)
Theorem wrong_count_error (net : network) (st : state) :
  (forall n,
     Forall (fun tok => isNaN (parseFloat (trim tok)) = false)
            (split (input st)) ->
     List.length (split (input st)) = n -> n <> 46%nat ->
     parseFeatures (input st) =
       Throw (ErrorObj (Chars (lit "Expected 46 features, but got "
                               ++ decimal (N.of_nat n)))) /\
     error (ui (submit net st)) =
       Some (Chars (lit "Expected 46 features, but got "
                    ++ decimal (N.of_nat n))) /\
     existsb isFetch (trace (submit net st)) = false) /\
  (isEmpty (trim (input st)) = true ->
     parseFeatures (input st) = Return None /\
     error (ui (submit net st)) =
       Some (Chars (lit "Please enter exactly 46 comma-separated numbers")) /\
     existsb isFetch (trace (submit net st)) = false).
Proof.
  split.
  - intros n V L Hn.
    assert (E : parseFeatures (input st) =
                Throw (ErrorObj (expectedMessage n))).
    { rewrite parseFeatures_eq.
      destruct (isEmpty (trim (input st))) eqn:B.
      - destruct (blank_single _ B) as (tok & S & T).
        rewrite S in V. inversion V as [|? ? N0 _]; subst.
        rewrite T in N0. discriminate N0.
      - apply find_notNumber_None in V. fold (tokens (input st)) in V.
        rewrite V, tokens_length, L.
        apply Nat.eqb_neq in Hn. now rewrite Hn. }
    split; [exact E|]. rewrite submit_eq, E. split; reflexivity.
  - intros B.
    assert (E : parseFeatures (input st) = Return None)
      by (rewrite parseFeatures_eq, B; reflexivity).
    split; [exact E|]. rewrite submit_eq, E. split; reflexivity.
Qed.

Lemma wrong_count_error_three :
  error (ui (submit offline (idle (lit "1, 2, 3")))) =
    Some (Chars (lit "Expected 46 features, but got 3")) /\
  error (ui (submit offline (idle (lit "  ")))) =
    Some (Chars (lit "Please enter exactly 46 comma-separated numbers")).
Proof.
  split.
  - refine (proj1 (proj2 (proj1 (wrong_count_error offline
                                   (idle (lit "1, 2, 3"))) 3%nat _ _ _))).
    + apply all_numbers_check. vm_compute. reflexivity.
    + vm_compute. reflexivity.
    + discriminate.
  - refine (proj1 (proj2 (proj2 (wrong_count_error offline
                                   (idle (lit "  "))) _))).
    vm_compute. reflexivity.
Defined.

(** C2 fails as stated: the empty text holds no number, and the error that a
    submission of it shows is a sentence in which the count 0 does not
    occur. *)
Lemma blank_input_error_has_no_count :
  List.length (filter (fun tok => negb (isNaN (parseFloat (trim tok))))
                      (split [])) = 0%nat /\
  parseFeatures [] = Return None /\
  error (ui (submit offline (idle []))) =
    Some (Chars (lit "Please enter exactly 46 comma-separated numbers")) /\
  includes (decimal 0)
           (lit "Please enter exactly 46 comma-separated numbers") = false.
Proof. vm_compute. repeat split. Qed.




(** ** The submit handler *)

(** C5, as the code has it: a submission first clears the error and the
    result and then parses the text.  Only when a vector comes back does
    [loading] become true; the request is then made and exactly one of
    [setResult(data)] and [setError(message)] follows.  When no vector comes
    back the error is set at once and [loading] never becomes true.  Either
    way the last event is [setLoading(false)]. *)
Theorem handlePredict_transitions (net : network) (st : state) :
  loading (ui (submit net st)) = false /\
  match parseFeatures (input st) with
  | Return (Some features) =>
      exists outcome,
        trace (submit net st) =
          [SetError None; SetResult JNull; SetLoading true; Fetch features;
           outcome; SetLoading false] /\
        ((exists data, outcome = SetResult data /\
                       result (ui (submit net st)) = data /\
                       error (ui (submit net st)) = None) \/
         (exists msg, outcome = SetError (Some msg) /\
                      result (ui (submit net st)) = JNull /\
                      error (ui (submit net st)) = Some msg))
  | _ =>
      exists msg,
        trace (submit net st) =
          [SetError None; SetResult JNull; SetError (Some msg);
           SetLoading false] /\
        existsb isLoadingOn (trace (submit net st)) = false /\
        result (ui (submit net st)) = JNull /\
        error (ui (submit net st)) = Some msg
  end.
Proof.
  rewrite submit_eq.
  destruct (parseFeatures (input st)) as [[features|]|e].
  - destruct (answer (net features)) as [msg|data]; (split; [reflexivity|]).
    + exists (SetError (Some msg)). split; [reflexivity|].
      right. exists msg. repeat split.
    + exists (SetResult data). split; [reflexivity|].
      left. exists data. repeat split.
  - split; [reflexivity|]. exists pleaseEnter. repeat split.
  - split; [reflexivity|]. eexists. repeat split.
Qed.

(** C5 fails as stated: the submission of a text that does not parse never
    sets [loading] to true. *)
Lemma parse_failure_skips_loading :
  parseFeatures (lit "abc") =
    Throw (ErrorObj (Chars (lit "Invalid number: abc"))) /\
  trace (submit offline (idle (lit "abc"))) =
    [SetError None; SetResult JNull;
     SetError (Some (Chars (lit "Invalid number: abc"))); SetLoading false] /\
  existsb isLoadingOn (trace (submit offline (idle (lit "abc")))) = false.
Proof. vm_compute. repeat split. Qed.

(** C6: when the text fails validation, by a token that is not a number or
    by a count other than 46, the error is set right after the two resets and
    no request is made. *)
Theorem validation_failure_no_fetch (net : network) (st : state) :
  (exists tok, In tok (split (input st)) /\
               isNaN (parseFloat (trim tok)) = true) \/
  List.length (split (input st)) <> 46%nat ->
  exists msg,
    trace (submit net st) =
      [SetError None; SetResult JNull; SetError (Some msg); SetLoading false] /\
    error (ui (submit net st)) = Some msg /\
    existsb isFetch (trace (submit net st)) = false.
Proof.
  intros H.
  assert (E : forall v, parseFeatures (input st) <> Return (Some v)).
  { intros v P. apply parseFeatures_success in P. destruct P as (L & V & _).
    destruct H as [(tok & Hin & Hbad)|H]; [|contradiction].
    rewrite Forall_forall in V. specialize (V tok Hin).
    unfold notNumber in V. congruence. }
  rewrite submit_eq.
  destruct (parseFeatures (input st)) as [[features|]|e].
  - now destruct (E features).
  - exists pleaseEnter. repeat split.
  - eexists. repeat split.
Qed.

Lemma validation_failure_no_fetch_two :
  ((exists tok, In tok (split (input (idle (lit "0.5, 1.2")))) /\
                isNaN (parseFloat (trim tok)) = true) \/
   List.length (split (input (idle (lit "0.5, 1.2")))) <> 46%nat) /\
  exists msg,
    trace (submit offline (idle (lit "0.5, 1.2"))) =
      [SetError None; SetResult JNull; SetError (Some msg); SetLoading false] /\
    error (ui (submit offline (idle (lit "0.5, 1.2")))) = Some msg /\
    existsb isFetch (trace (submit offline (idle (lit "0.5, 1.2")))) = false.
Proof.
  assert (H : (exists tok, In tok (split (input (idle (lit "0.5, 1.2")))) /\
                           isNaN (parseFloat (trim tok)) = true) \/
              List.length (split (input (idle (lit "0.5, 1.2")))) <> 46%nat)
    by (right; vm_compute; discriminate).
  split; [exact H|].
  exact (validation_failure_no_fetch offline (idle (lit "0.5, 1.2")) H).
Defined.

(** ** Rendering *)

(** C7: [getRiskLevel] gives the label Low below 0.3, Medium from 0.3 up to
    but not including 0.7, and High from 0.7 on. *)
Theorem getRiskLevel_thresholds (p : number) :
  (lt p n0_3 = true -> level (getRiskLevel p) = lit "Low") /\
  (le n0_3 p = true -> lt p n0_7 = true ->
   level (getRiskLevel p) = lit "Medium") /\
  (le n0_7 p = true -> level (getRiskLevel p) = lit "High").
Proof.
  pose proof (below_low_below_high p) as T.
  unfold getRiskLevel, lt, le, SFltb, SFleb.
  rewrite (SFcompare_antisym p n0_3), (SFcompare_antisym p n0_7).
  destruct (SFcompare p n0_3) as [[| |]|];
    destruct (SFcompare p n0_7) as [[| |]|];
    cbn [option_map CompOpp]; repeat split; intros;
    try reflexivity; try discriminate;
    specialize (T eq_refl); discriminate.
Qed.

Lemma getRiskLevel_thresholds_samples :
  (lt (ofDecimal false 12 (-2)) n0_3 = true /\
   level (getRiskLevel (ofDecimal false 12 (-2))) = lit "Low") /\
  (le n0_3 n0_3 = true /\ lt n0_3 n0_7 = true /\
   level (getRiskLevel n0_3) = lit "Medium") /\
  (le n0_7 n0_7 = true /\ level (getRiskLevel n0_7) = lit "High").
Proof.
  assert (L : lt (ofDecimal false 12 (-2)) n0_3 = true)
    by (vm_compute; reflexivity).
  assert (M3 : le n0_3 n0_3 = true) by (vm_compute; reflexivity).
  assert (M7 : lt n0_3 n0_7 = true) by (vm_compute; reflexivity).
  assert (H : le n0_7 n0_7 = true) by (vm_compute; reflexivity).
  split; [split; [exact L|]|split; [split; [exact M3|split; [exact M7|]]|
                                    split; [exact H|]]].
  - exact (proj1 (getRiskLevel_thresholds (ofDecimal false 12 (-2))) L).
  - exact (proj1 (proj2 (getRiskLevel_thresholds n0_3)) M3 M7).
  - exact (proj2 (proj2 (getRiskLevel_thresholds n0_7)) H).
Defined.

(** C10: for a probability that is a number (not [NaN]), the label and the
    bar show the same tier unless the probability is exactly 0.3, where the
    label is Medium and the bar emerald, or exactly 0.7, where the label is
    High and the bar amber. *)
Theorem label_and_bar_tiers (p : number) :
  isNaN p = false ->
  if strictEq p n0_3 then
    level (getRiskLevel p) = lit "Medium" /\
    barGradient p = lit "bg-gradient-to-r from-emerald-500 to-emerald-600"
  else if strictEq p n0_7 then
    level (getRiskLevel p) = lit "High" /\
    barGradient p = lit "bg-gradient-to-r from-amber-500 to-amber-600"
  else
    (level (getRiskLevel p) = lit "Low" /\
     barGradient p = lit "bg-gradient-to-r from-emerald-500 to-emerald-600") \/
    (level (getRiskLevel p) = lit "Medium" /\
     barGradient p = lit "bg-gradient-to-r from-amber-500 to-amber-600") \/
    (level (getRiskLevel p) = lit "High" /\
     barGradient p = lit "bg-gradient-to-r from-red-500 to-red-600").
Proof.
  intros N.
  pose proof (below_low_below_high p) as T.
  assert (D3 : SFcompare p n0_3 <> None)
    by (apply SFcompare_defined; [exact N|reflexivity]).
  assert (D7 : SFcompare p n0_7 <> None)
    by (apply SFcompare_defined; [exact N|reflexivity]).
  unfold strictEq, SFeqb.
  destruct (SFcompare p n0_3) as [[| |]|] eqn:E3; [| | |congruence].
  - rewrite n0_3_eq in E3. apply SFcompare_eq_finite in E3. subst p.
    vm_compute. split; reflexivity.
  - rewrite (T eq_refl). left.
    pose proof (T eq_refl) as E7. now by_comparisons p E3 E7.
  - destruct (SFcompare p n0_7) as [[| |]|] eqn:E7; [| | |congruence].
    + rewrite n0_7_eq in E7. apply SFcompare_eq_finite in E7. subst p.
      vm_compute. split; reflexivity.
    + right. left. now by_comparisons p E3 E7.
    + right. right. now by_comparisons p E3 E7.
Qed.

Lemma label_and_bar_tiers_samples :
  (isNaN n0_3 = false /\
   level (getRiskLevel n0_3) = lit "Medium" /\
   barGradient n0_3 = lit "bg-gradient-to-r from-emerald-500 to-emerald-600") /\
  (isNaN n0_7 = false /\
   level (getRiskLevel n0_7) = lit "High" /\
   barGradient n0_7 = lit "bg-gradient-to-r from-amber-500 to-amber-600") /\
  (isNaN (ofDecimal false 82 (-2)) = false /\
   ((level (getRiskLevel (ofDecimal false 82 (-2))) = lit "Low" /\
     barGradient (ofDecimal false 82 (-2)) =
       lit "bg-gradient-to-r from-emerald-500 to-emerald-600") \/
    (level (getRiskLevel (ofDecimal false 82 (-2))) = lit "Medium" /\
     barGradient (ofDecimal false 82 (-2)) =
       lit "bg-gradient-to-r from-amber-500 to-amber-600") \/
    (level (getRiskLevel (ofDecimal false 82 (-2))) = lit "High" /\
     barGradient (ofDecimal false 82 (-2)) =
       lit "bg-gradient-to-r from-red-500 to-red-600"))).
Proof.
  split; [|split]; (split; [reflexivity|]).
  - exact (label_and_bar_tiers n0_3 eq_refl).
  - exact (label_and_bar_tiers n0_7 eq_refl).
  - exact (label_and_bar_tiers (ofDecimal false 82 (-2)) eq_refl).
Defined.

(** C8: after a successful response with the body
    [{prediction: 1, default_probability: 0.82}] the result section shows
    "Default Risk" and "82.0%" in the red classes; with the body
    [{prediction: 0, default_probability: 0.12}] it shows "Safe Loan" in the
    emerald classes. *)
Theorem display_of_successful_response
        (net : network) (st : state) (features : list number) (r : response) :
  parseFeatures (input st) = Return (Some features) ->
  net features = FetchResolved r ->
  ok r = true ->
  (body r = JsonResolved defaultBody ->
   error (ui (submit net st)) = None /\
   exists v,
     render (ui (submit net st)) = Some v /\
     predictionText v = lit "Default Risk" /\
     predictionClass v = lit "text-red-400" /\
     flatten (probabilityText v) = Some (lit "82.0%") /\
     flatten (riskText v) = Some (lit "High Risk Level") /\
     riskClass v = lit "text-sm font-medium text-red-600" /\
     barClass v =
       lit "h-full rounded-full transition-all duration-1000 ease-out bg-gradient-to-r from-red-500 to-red-600") /\
  (body r = JsonResolved safeBody ->
   error (ui (submit net st)) = None /\
   exists v,
     render (ui (submit net st)) = Some v /\
     predictionText v = lit "Safe Loan" /\
     predictionClass v = lit "text-emerald-400" /\
     flatten (probabilityText v) = Some (lit "12.0%") /\
     flatten (riskText v) = Some (lit "Low Risk Level") /\
     riskClass v = lit "text-sm font-medium text-emerald-600" /\
     barClass v =
       lit "h-full rounded-full transition-all duration-1000 ease-out bg-gradient-to-r from-emerald-500 to-emerald-600").
Proof.
  intros P F K. rewrite submit_eq, P. unfold answer. rewrite F, K.
  split; intros B; rewrite B; (split; [reflexivity|]);
    eexists; (split; [reflexivity|]); vm_compute; repeat split.
Qed.

Lemma display_of_successful_response_placeholder :
  (parseFeatures (input (idle placeholder)) = Return (Some placeholderFeatures) /\
   ok (okResponse defaultBody) = true /\
   body (okResponse defaultBody) = JsonResolved defaultBody) /\
  error (ui (submit (fun _ => FetchResolved (okResponse defaultBody))
                    (idle placeholder))) = None /\
  exists v,
    render (ui (submit (fun _ => FetchResolved (okResponse defaultBody))
                       (idle placeholder))) = Some v /\
    predictionText v = lit "Default Risk" /\
    predictionClass v = lit "text-red-400" /\
    flatten (probabilityText v) = Some (lit "82.0%") /\
    flatten (riskText v) = Some (lit "High Risk Level") /\
    riskClass v = lit "text-sm font-medium text-red-600" /\
    barClass v =
      lit "h-full rounded-full transition-all duration-1000 ease-out bg-gradient-to-r from-red-500 to-red-600".
Proof.
  assert (P : parseFeatures (input (idle placeholder)) =
              Return (Some placeholderFeatures)) by (vm_compute; reflexivity).
  split; [split; [exact P|split; reflexivity]|].
  exact (proj1 (display_of_successful_response
                  (fun _ => FetchResolved (okResponse defaultBody))
                  (idle placeholder) P eq_refl eq_refl) eq_refl).
Defined.

(** C9, as the code has it: on a response that is not OK the result stays
    empty.  When the body is a JSON object, a [detail] that is a non-empty
    string is shown as it is; any other truthy [detail] is shown as its
    string conversion when it has one, and otherwise the message of the
    [TypeError] that the conversion throws is shown.  A [detail] that is
    absent or falsy (the empty string among others) gives
    "HTTP <status>: <statusText>".  When the body is not JSON the message of
    the error that [response.json()] rejects with is shown. *)
Theorem non_ok_response_error
        (net : network) (st : state) (features : list number) (r : response) :
  parseFeatures (input st) = Return (Some features) ->
  net features = FetchResolved r ->
  ok r = false ->
  result (ui (submit net st)) = JNull /\
  (forall fields, body r = JsonResolved (JObject fields) ->
     (forall s, getField (lit "detail") fields = Some (JString s) ->
                s <> [] -> error (ui (submit net st)) = Some (Chars s)) /\
     (forall d, getField (lit "detail") fields = Some d ->
                truthy (Some d) = true -> convertible d = true ->
                error (ui (submit net st)) = Some (toStringText d)) /\
     (forall d, getField (lit "detail") fields = Some d ->
                truthy (Some d) = true -> convertible d = false ->
                error (ui (submit net st)) = Some (NotPrimitiveMessage d)) /\
     (forall d, getField (lit "detail") fields = Some d ->
                truthy (Some d) = false ->
                error (ui (submit net st)) =
                  Some (Chars (lit "HTTP " ++ decimal (status r) ++ lit ": "
                               ++ statusText r))) /\
     (getField (lit "detail") fields = None ->
      error (ui (submit net st)) =
        Some (Chars (lit "HTTP " ++ decimal (status r) ++ lit ": "
                     ++ statusText r)))) /\
  (forall e, body r = JsonRejected e ->
     error (ui (submit net st)) =
       Some (messageOr "An unexpected error occurred" e)).
Proof.
  intros P F K. rewrite submit_eq, P. unfold answer. rewrite F, K.
  split; [reflexivity|]. split.
  - intros fields B. unfold httpError. rewrite B. cbn [finished ui error].
    repeat split.
    + intros s G Hs. rewrite G. destruct s; [congruence|reflexivity].
    + intros d G Tr Cv. now rewrite G, Tr, Cv.
    + intros d G Tr Cv. now rewrite G, Tr, Cv.
    + intros d G Tr. now rewrite G, Tr.
    + intros G. now rewrite G.
  - intros e B. unfold httpError. now rewrite B.
Qed.

Lemma non_ok_response_error_model_unavailable :
  let r := errorResponse 503 "Service Unavailable"
             (JsonResolved
                (JObject [(lit "detail", JString (lit "model unavailable"))])) in
  (parseFeatures (input (idle placeholder)) = Return (Some placeholderFeatures) /\
   ok r = false) /\
  error (ui (submit (fun _ => FetchResolved r) (idle placeholder))) =
    Some (Chars (lit "model unavailable")).
Proof.
  intros r.
  assert (P : parseFeatures (input (idle placeholder)) =
              Return (Some placeholderFeatures)) by (vm_compute; reflexivity).
  split; [split; [exact P|reflexivity]|].
  refine (proj1 (proj1 (proj2 (non_ok_response_error
                                 (fun _ => FetchResolved r) (idle placeholder)
                                 P eq_refl eq_refl)) _ eq_refl) _ eq_refl _).
  discriminate.
Defined.

(** A [detail] that is an object with a member [toString] has no string
    conversion: the message shown is that of the [TypeError]. *)
Example detail_without_conversion :
  error (ui (submit
               (fun _ => FetchResolved
                  (errorResponse 500 "Internal Server Error"
                     (JsonResolved
                        (JObject [(lit "detail",
                                   JObject [(lit "toString",
                                             JString (lit "x"))])]))))
               (idle placeholder))) =
    Some (NotPrimitiveMessage (JObject [(lit "toString", JString (lit "x"))])).
Proof. vm_compute. reflexivity. Qed.

(** C9 fails as stated.  A [detail] that is present but empty is not shown:
    the status line is.  And on a body that is not JSON, where there is no
    [detail], the status line is not shown: the message of the rejection
    is. *)
Lemma empty_detail_and_non_json_body :
  error (ui (submit
               (fun _ => FetchResolved
                  (errorResponse 500 "Internal Server Error"
                     (JsonResolved (JObject [(lit "detail", JString [])]))))
               (idle placeholder))) =
    Some (Chars (lit "HTTP 500: Internal Server Error")) /\
  getField (lit "detail") [(lit "detail", JString [])] = Some (JString []) /\
  error (ui (submit
               (fun _ => FetchResolved
                  (errorResponse 502 "Bad Gateway"
                     (JsonRejected
                        (ErrorObj (Chars (lit "Unexpected token < in JSON"))))))
               (idle placeholder))) =
    Some (Chars (lit "Unexpected token < in JSON")).
Proof. vm_compute. repeat split. Qed.

(** * More of the component *)

(** ** Helpers *)

Section MoreFacts.

Lemma split_single s t : split s = [t] -> s = t.
Proof.
  revert t. induction s as [|c r IH]; intros t.
  - intros H. injection H as <-. reflexivity.
  - rewrite split_cons. destruct (c =? comma)%N.
    + intros H. injection H as _ H. now apply split_nonempty in H.
    + destruct (split r) as [|h tl] eqn:S; intros H.
      * now apply split_nonempty in S.
      * injection H as <- ->. f_equal. now apply IH.
Qed.

Lemma blank_iff_tokens s : isEmpty (trim s) = true <-> tokens s = [[]].
Proof.
  split; [apply blank_tokens|].
  intros H. unfold tokens in H.
  destruct (split s) as [|t [|t' l]] eqn:S; try discriminate.
  injection H as H. apply split_single in S. subst t. now rewrite H.
Qed.

Lemma split_length s : List.length (split s) = S (commas s).
Proof.
  unfold commas. induction s as [|c r IH]; [reflexivity|].
  rewrite split_cons. cbn [count_occ].
  destruct (N.eqb_spec c comma) as [->|Hc].
  - destruct (N.eq_dec comma comma); [|congruence].
    cbn [List.length]. now rewrite IH.
  - destruct (N.eq_dec c comma); [congruence|].
    rewrite <- IH. destruct (split r) as [|h t] eqn:S; [|reflexivity].
    now apply split_nonempty in S.
Qed.

Lemma number_not_blank tok : notNumber (trim tok) = false -> trim tok <> [].
Proof. intros H E. rewrite E in H. discriminate H. Qed.

Lemma featureCount_all_numbers l :
  Forall (fun tok => notNumber (trim tok) = false) l ->
  filter (fun x => negb (isEmpty (trim x))) l = l.
Proof.
  induction 1 as [|tok l H _ IH]; [reflexivity|].
  cbn [filter]. apply number_not_blank in H.
  destruct (trim tok); [congruence|]. cbn. now rewrite IH.
Qed.

(** What [parseFeatures] throws is an [Error] whose message is a text that
    is not empty. *)
Lemma parseFeatures_throws_shape s e :
  parseFeatures s = Throw e -> exists msg, e = ErrorObj (Chars msg) /\ msg <> [].
Proof.
  rewrite parseFeatures_eq.
  destruct (isEmpty (trim s)); [discriminate|].
  destruct (find notNumber (tokens s)) as [t|].
  - intros H. injection H as <-. eexists. split; [reflexivity|discriminate].
  - destruct (List.length (tokens s) =? 46)%nat; [discriminate|].
    intros H. injection H as <-. eexists. split; [reflexivity|discriminate].
Qed.

Lemma decimal_nonempty n : decimal n <> [].
Proof.
  unfold decimal.
  assert (H : N.to_uint n <> Decimal.Nil).
  { destruct n; [discriminate|]. apply DecimalPos.Unsigned.to_uint_nonnil. }
  destruct (N.to_uint n); [congruence| | | | | | | | | |]; discriminate.
Qed.

End MoreFacts.

(** ** The parser, further *)

(** X1: [parseFeatures] returns [null] exactly on a blank text, so it does
    not when the submit button is enabled. *)
Theorem null_result_only_for_blank (st : state) :
  (parseFeatures (input st) = Return None <->
   isEmpty (trim (input st)) = true) /\
  (submitDisabled st = false -> parseFeatures (input st) <> Return None).
Proof.
  assert (H : parseFeatures (input st) = Return None <->
              isEmpty (trim (input st)) = true).
  { rewrite parseFeatures_eq.
    destruct (isEmpty (trim (input st))); [now split|].
    destruct (find notNumber (tokens (input st))); [now split|].
    destruct (List.length (tokens (input st)) =? 46)%nat; now split. }
  split; [exact H|].
  unfold submitDisabled. intros D P. apply H in P. rewrite P in D.
  now rewrite Bool.orb_true_r in D.
Qed.

Lemma null_result_only_for_blank_sample :
  submitDisabled (idle (lit "1, 2")) = false /\
  parseFeatures (input (idle (lit "1, 2"))) <> Return None.
Proof.
  assert (D : submitDisabled (idle (lit "1, 2")) = false) by reflexivity.
  split; [exact D|].
  exact (proj2 (null_result_only_for_blank (idle (lit "1, 2"))) D).
Defined.

(** X2: what [parseFeatures] throws is always an [Error], with one of two
    messages: "Invalid number: " and a trimmed token that is not a number, or
    "Expected 46 features, but got n" where every token is a number and
    their count [n] is not 46.  The text "Invalid input format" never
    comes out. *)
Theorem parseFeatures_throws (inputText : jsstring) (e : thrown) :
  parseFeatures inputText = Throw e ->
  (exists tok,
     In tok (split inputText) /\ isNaN (parseFloat (trim tok)) = true /\
     e = ErrorObj (Chars (lit "Invalid number: " ++ trim tok))) \/
  (Forall (fun tok => isNaN (parseFloat (trim tok)) = false)
          (split inputText) /\
   List.length (split inputText) <> 46%nat /\
   e = ErrorObj (Chars (lit "Expected 46 features, but got "
                        ++ decimal (N.of_nat (List.length (split inputText)))))).
Proof.
  rewrite parseFeatures_eq.
  destruct (isEmpty (trim inputText)); [discriminate|].
  destruct (find notNumber (tokens inputText)) as [t|] eqn:F.
  - intros H. injection H as <-. left.
    destruct (find_notNumber_Some _ F) as (before & tok & after & S & -> & N0 & _).
    exists tok. repeat split; [|exact N0].
    rewrite S. apply in_elt.
  - apply find_notNumber_None in F.
    destruct (List.length (tokens inputText) =? 46)%nat eqn:L; [discriminate|].
    intros H. injection H as <-. right.
    apply Nat.eqb_neq in L. rewrite tokens_length in *. now repeat split.
Qed.

Lemma parseFeatures_throws_sample :
  parseFeatures (lit "1, 2") = Throw (ErrorObj (expectedMessage 2)) /\
  ((exists tok,
      In tok (split (lit "1, 2")) /\ isNaN (parseFloat (trim tok)) = true /\
      ErrorObj (expectedMessage 2) =
        ErrorObj (Chars (lit "Invalid number: " ++ trim tok))) \/
   (Forall (fun tok => isNaN (parseFloat (trim tok)) = false)
           (split (lit "1, 2")) /\
    List.length (split (lit "1, 2")) <> 46%nat /\
    ErrorObj (expectedMessage 2) =
      ErrorObj (Chars (lit "Expected 46 features, but got "
                       ++ decimal (N.of_nat (List.length (split (lit "1, 2")))))))).
Proof.
  assert (H : parseFeatures (lit "1, 2") = Throw (ErrorObj (expectedMessage 2)))
    by (vm_compute; reflexivity).
  split; [exact H|].
  exact (parseFeatures_throws (lit "1, 2") H).
Defined.

(** X3: the outcome of [parseFeatures] depends on the trimmed tokens only:
    white space around the text or around a token changes nothing. *)
Theorem parseFeatures_tokens_only (s s' : jsstring) :
  map trim (split s) = map trim (split s') ->
  parseFeatures s = parseFeatures s'.
Proof.
  intros H. fold (tokens s) (tokens s') in H.
  rewrite !parseFeatures_eq, <- H.
  destruct (isEmpty (trim s)) eqn:B, (isEmpty (trim s')) eqn:B'; try reflexivity.
  - apply blank_iff_tokens in B. rewrite H in B.
    apply blank_iff_tokens in B. congruence.
  - apply blank_iff_tokens in B'. rewrite <- H in B'.
    apply blank_iff_tokens in B'. congruence.
Qed.

Lemma parseFeatures_tokens_only_sample :
  map trim (split (lit "  1 ,2 ")) = map trim (split (lit "1,2")) /\
  parseFeatures (lit "  1 ,2 ") = parseFeatures (lit "1,2").
Proof.
  assert (H : map trim (split (lit "  1 ,2 ")) = map trim (split (lit "1,2")))
    by (vm_compute; reflexivity).
  split; [exact H|].
  exact (parseFeatures_tokens_only (lit "  1 ,2 ") (lit "1,2") H).
Defined.

(** X4: a text has one token more than it has commas, so [parseFeatures]
    returns a vector only for a text with exactly 45 commas. *)
Theorem vector_needs_45_commas (inputText : jsstring) (v : list number) :
  parseFeatures inputText = Return (Some v) ->
  commas inputText = 45%nat /\
  List.length (split inputText) = S (commas inputText).
Proof.
  intros H. apply parseFeatures_success in H. destruct H as (L & _ & _).
  pose proof (split_length inputText) as S. split; [|exact S].
  rewrite L in S. now injection S.
Qed.

Lemma vector_needs_45_commas_placeholder :
  parseFeatures placeholder = Return (Some placeholderFeatures) /\
  commas placeholder = 45%nat /\
  List.length (split placeholder) = S (commas placeholder).
Proof.
  assert (H : parseFeatures placeholder = Return (Some placeholderFeatures))
    by (vm_compute; reflexivity).
  split; [exact H|].
  exact (vector_needs_45_commas placeholder H).
Defined.

(** X5: when every token is a number, the counter under the text area shows
    the number of tokens: the text parses exactly when the counter shows 46,
    and otherwise the error of a submission quotes the number that the
    counter shows. *)
Theorem counter_agrees_with_parser (net : network) (st : state) :
  Forall (fun tok => isNaN (parseFloat (trim tok)) = false)
         (split (input st)) ->
  featureCount (input st) = List.length (split (input st)) /\
  (featureCount (input st) = 46%nat ->
   exists v, parseFeatures (input st) = Return (Some v)) /\
  (featureCount (input st) <> 46%nat ->
   error (ui (submit net st)) =
     Some (Chars (lit "Expected 46 features, but got "
                  ++ decimal (N.of_nat (featureCount (input st)))))).
Proof.
  intros V.
  assert (C : featureCount (input st) = List.length (split (input st))).
  { unfold featureCount. now rewrite (featureCount_all_numbers V). }
  rewrite C. split; [reflexivity|]. split.
  - intros L. eexists. apply parseFeatures_success. eauto.
  - intros L. rewrite submit_eq.
    assert (E : parseFeatures (input st) =
                Throw (ErrorObj (expectedMessage
                                   (List.length (split (input st)))))).
    { rewrite parseFeatures_eq.
      destruct (isEmpty (trim (input st))) eqn:B.
      - destruct (blank_single _ B) as (tok & S & T).
        rewrite S in V. inversion V as [|? ? N0 _]; subst.
        rewrite T in N0. discriminate N0.
      - apply find_notNumber_None in V. fold (tokens (input st)) in V.
        rewrite V, tokens_length.
        apply Nat.eqb_neq in L. now rewrite L. }
    rewrite E. reflexivity.
Qed.

Lemma counter_agrees_with_parser_sample :
  Forall (fun tok => isNaN (parseFloat (trim tok)) = false)
         (split (input (idle (lit "1, 2, 3")))) /\
  featureCount (input (idle (lit "1, 2, 3"))) = 3%nat /\
  error (ui (submit offline (idle (lit "1, 2, 3")))) =
    Some (Chars (lit "Expected 46 features, but got 3")).
Proof.
  assert (V : Forall (fun tok => isNaN (parseFloat (trim tok)) = false)
                     (split (input (idle (lit "1, 2, 3")))))
    by (apply all_numbers_check; vm_compute; reflexivity).
  split; [exact V|].
  destruct (counter_agrees_with_parser offline (idle (lit "1, 2, 3")) V)
    as (C & _ & E).
  split; [exact C|]. apply E. vm_compute. discriminate.
Defined.

(** X6: the counter never shows more than the number of tokens, blank tokens
    are not counted, and on a blank text it shows 0 while the submit button
    is disabled. *)
Theorem counter_skips_blank_tokens (st : state) :
  (featureCount (input st) <= List.length (split (input st)))%nat /\
  featureCount (input st) =
    List.length (filter (fun tok => negb (isEmpty tok)) (tokens (input st))) /\
  (isEmpty (trim (input st)) = true ->
   featureCount (input st) = 0%nat /\ submitDisabled st = true).
Proof.
  unfold featureCount. split; [apply filter_length_le|]. split.
  - unfold tokens. induction (split (input st)) as [|tok l IH]; [reflexivity|].
    cbn [filter map]. destruct (isEmpty (trim tok)); cbn; now rewrite IH.
  - intros B. unfold submitDisabled. rewrite B, Bool.orb_true_r.
    destruct (blank_single _ B) as (tok & -> & T).
    cbn. now rewrite T.
Qed.

Lemma counter_skips_blank_tokens_sample :
  isEmpty (trim (input (idle (lit "  ")))) = true /\
  featureCount (input (idle (lit "  "))) = 0%nat /\
  submitDisabled (idle (lit "  ")) = true.
Proof.
  assert (B : isEmpty (trim (input (idle (lit "  ")))) = true) by reflexivity.
  split; [exact B|].
  exact (proj2 (proj2 (counter_skips_blank_tokens (idle (lit "  ")))) B).
Defined.

(** ** The submit handler, further *)

(** X7: a submission does not depend on what the form showed before: two
    states with the same text end in the same state with the same events,
    whatever result, error or loading flag they started with. *)
Theorem submit_forgets_prior_state (net : network) (st st' : state) :
  input st = input st' -> submit net st = submit net st'.
Proof.
  intros H. rewrite !submit_eq. unfold finished. rewrite H. reflexivity.
Qed.

Lemma submit_forgets_prior_state_sample :
  input {| input := lit "abc"; loading := true; result := defaultBody;
           error := Some pleaseEnter |} = input (idle (lit "abc")) /\
  submit offline {| input := lit "abc"; loading := true; result := defaultBody;
                    error := Some pleaseEnter |} =
  submit offline (idle (lit "abc")).
Proof.
  split; [reflexivity|].
  exact (submit_forgets_prior_state offline
           {| input := lit "abc"; loading := true; result := defaultBody;
              error := Some pleaseEnter |} (idle (lit "abc")) eq_refl).
Defined.

(** X8: a submission leaves the text as it was and [loading] off, so that
    the submit button is disabled afterwards only for a blank text; and a
    second submission, whatever the service does then, goes as it would have
    gone from the state before the first. *)
Theorem resubmission (net : network) (st : state) :
  input (ui (submit net st)) = input st /\
  textareaDisabled (ui (submit net st)) = false /\
  submitDisabled (ui (submit net st)) = isEmpty (trim (input st)) /\
  forall again : network,
    submit again (ui (submit net st)) = submit again st.
Proof.
  assert (I : input (ui (submit net st)) = input st).
  { rewrite submit_eq.
    destruct (parseFeatures (input st)) as [[features|]|e]; try reflexivity.
    now destruct (answer (net features)). }
  assert (L : loading (ui (submit net st)) = false).
  { rewrite submit_eq.
    destruct (parseFeatures (input st)) as [[features|]|e]; try reflexivity.
    now destruct (answer (net features)). }
  split; [exact I|]. split; [exact L|]. split.
  - unfold submitDisabled. now rewrite L, I.
  - intros again.
    rewrite (submit_eq again (ui (submit net st))), (submit_eq again st).
    unfold finished. now rewrite !I.
Qed.

(** X9: every state that a submission passes through is the one that the
    updates so far give, and when the request is made the form is locked:
    [loading] is on, so the text area and the submit button are disabled,
    and neither a result nor an error is left from before. *)
Theorem locked_while_fetching (net : network) (st : state) :
  ui (submit net st) = replay st (trace (submit net st)) /\
  forall before features after,
    trace (submit net st) = before ++ Fetch features :: after ->
    loading (replay st before) = true /\
    submitDisabled (replay st before) = true /\
    textareaDisabled (replay st before) = true /\
    result (replay st before) = JNull /\
    error (replay st before) = None.
Proof.
  rewrite submit_eq.
  destruct (parseFeatures (input st)) as [[v|]|e].
  - assert (P : forall middle res err before features after,
               In middle [SetError err; SetResult res] ->
               [SetError None; SetResult JNull; SetLoading true; Fetch v;
                middle; SetLoading false] = before ++ Fetch features :: after ->
               before = [SetError None; SetResult JNull; SetLoading true]).
    { intros middle res err before features after Hm H.
      destruct before as [|e1 [|e2 [|e3 [|e4 before]]]]; try discriminate H.
      - injection H as <- <- <- _ _. reflexivity.
      - exfalso. injection H as _ _ _ _ H.
        destruct before as [|e5 [|e6 before]].
        + destruct Hm as [<-|[<-|[]]]; discriminate H.
        + discriminate H.
        + injection H as _ _ H. destruct before; discriminate H. }
    destruct (answer (net v)) as [msg|data]; (split; [reflexivity|]);
      intros before features after H;
      [apply (P _ JNull (Some msg)) in H|apply (P _ data None) in H];
      try (subst before; repeat split; reflexivity); cbn; auto.
  - split; [reflexivity|]. intros before features after H. exfalso.
    destruct before as [|e1 [|e2 [|e3 [|e4 [|e5 before]]]]]; discriminate H.
  - split; [reflexivity|]. intros before features after H. exfalso.
    destruct before as [|e1 [|e2 [|e3 [|e4 [|e5 before]]]]]; discriminate H.
Qed.

Lemma locked_while_fetching_placeholder :
  trace (submit (fun _ => FetchResolved (okResponse defaultBody))
                (idle placeholder)) =
    [SetError None; SetResult JNull; SetLoading true]
    ++ Fetch placeholderFeatures :: [SetResult defaultBody; SetLoading false] /\
  loading (replay (idle placeholder)
                  [SetError None; SetResult JNull; SetLoading true]) = true /\
  submitDisabled (replay (idle placeholder)
                         [SetError None; SetResult JNull; SetLoading true])
    = true.
Proof.
  assert (T : trace (submit (fun _ => FetchResolved (okResponse defaultBody))
                            (idle placeholder)) =
              [SetError None; SetResult JNull; SetLoading true]
              ++ Fetch placeholderFeatures
                 :: [SetResult defaultBody; SetLoading false])
    by (vm_compute; reflexivity).
  split; [exact T|].
  destruct (proj2 (locked_while_fetching
                     (fun _ => FetchResolved (okResponse defaultBody))
                     (idle placeholder)) _ _ _ T) as (L & D & _).
  split; [exact L|exact D].
Defined.


(** X10: a submission makes at most one request.  The array written into
    its body is the vector that [parseFeatures] returned for the text, 46
    elements and none of them [NaN]; the body has one entry for each, the
    number for a finite element ([0] for either zero) and [null] for an
    infinite one. *)
Theorem request_body_from_parsed_vector (net : network) (st : state) :
  (List.length (filter isFetch (trace (submit net st))) <= 1)%nat /\
  forall features,
    In (Fetch features) (trace (submit net st)) ->
    parseFeatures (input st) = Return (Some features) /\
    List.length features = 46%nat /\
    Forall (fun x => isNaN x = false) features /\
    exists entries,
      postedBody features =
        Chars ([123; 34]%N ++ lit "features" ++ [34; 58; 91]%N)
        :: commaSeparated entries ++ [Chars (lit "]}")] /\
      List.length entries = 46%nat /\
      Forall2 postedAs features entries.
Proof.
  assert (B : forall v, List.length v = 46%nat ->
                        Forall (fun x => isNaN x = false) v ->
                        exists entries,
                          postedBody v =
                            Chars ([123; 34]%N ++ lit "features"
                                   ++ [34; 58; 91]%N)
                            :: commaSeparated entries ++ [Chars (lit "]}")] /\
                          List.length entries = 46%nat /\
                          Forall2 postedAs v entries).
  { intros v L V. exists (map stringifyNumber v).
    split; [reflexivity|]. split; [now rewrite length_map|].
    clear L. induction V as [|x v Hx _ IH]; constructor; [|exact IH].
    destruct x; try reflexivity. discriminate Hx. }
  rewrite submit_eq.
  destruct (parseFeatures (input st)) as [[v|]|e] eqn:P.
  - assert (V : List.length v = 46%nat /\ Forall (fun x => isNaN x = false) v).
    { apply parseFeatures_success in P. destruct P as (L & V & ->).
      split; [now rewrite length_map|]. apply Forall_map. exact V. }
    destruct V as (L & V).
    destruct (answer (net v)) as [msg|data]; (split; [cbn; lia|]);
      intros features H; cbn in H;
      repeat (destruct H as [H|H]; try discriminate H; try contradiction);
      injection H as <-; auto.
  - split; [cbn; lia|]. intros features H. cbn in H.
    repeat (destruct H as [H|H]; try discriminate H; try contradiction).
  - split; [cbn; lia|]. intros features H. cbn in H.
    repeat (destruct H as [H|H]; try discriminate H; try contradiction).
Qed.

Lemma request_body_from_parsed_vector_infinite :
  In (Fetch (S754_infinity false :: S754_infinity true :: repeat n1 44))
     (trace (submit offline (idle infiniteInput))) /\
  parseFeatures (input (idle infiniteInput)) =
    Return (Some (S754_infinity false :: S754_infinity true :: repeat n1 44)) /\
  exists entries,
    postedBody (S754_infinity false :: S754_infinity true :: repeat n1 44) =
      Chars ([123; 34]%N ++ lit "features" ++ [34; 58; 91]%N)
      :: commaSeparated entries ++ [Chars (lit "]}")] /\
    List.length entries = 46%nat /\
    Forall2 postedAs
            (S754_infinity false :: S754_infinity true :: repeat n1 44)
            entries.
Proof.
  assert (H : In (Fetch (S754_infinity false :: S754_infinity true
                         :: repeat n1 44))
                 (trace (submit offline (idle infiniteInput))))
    by (vm_compute; auto).
  split; [exact H|].
  destruct (proj2 (request_body_from_parsed_vector offline (idle infiniteInput))
                  _ H) as (P & _ & _ & E).
  split; [exact P|exact E].
Defined.


(** X11: a result is stored exactly when the text parsed, the request was
    answered with an OK response and its body was JSON; the result is then
    that body and no error is set.  In every other case an error is set and
    the result stays empty, so the two are never set together. *)
Theorem result_only_after_ok_response (net : network) (st : state) :
  (error (ui (submit net st)) = None <->
   exists features r data,
     parseFeatures (input st) = Return (Some features) /\
     net features = FetchResolved r /\ ok r = true /\
     body r = JsonResolved data /\
     result (ui (submit net st)) = data) /\
  (error (ui (submit net st)) <> None -> result (ui (submit net st)) = JNull).
Proof.
  rewrite submit_eq.
  destruct (parseFeatures (input st)) as [[v|]|e].
  - unfold answer.
    destruct (net v) as [e|r] eqn:F; cbn.
    + split; [|reflexivity]. split; [discriminate|].
      intros (f & r & d & H & H' & _). injection H as <-. congruence.
    + destruct (ok r) eqn:K.
      * destruct (body r) as [e|data] eqn:B; cbn.
        -- split; [|reflexivity]. split; [discriminate|].
           intros (f & r' & d & H & H' & _ & B' & _).
           injection H as <-. rewrite F in H'. injection H' as <-. congruence.
        -- split; [|congruence]. split; [|reflexivity].
           intros _. exists v, r, data. auto.
      * cbn. split; [|reflexivity]. split; [discriminate|].
        intros (f & r' & d & H & H' & K' & _).
        injection H as <-. rewrite F in H'. injection H' as <-. congruence.
  - cbn. split; [|reflexivity]. split; [discriminate|].
    intros (f & r & d & H & _). discriminate H.
  - cbn. split; [|reflexivity]. split; [discriminate|].
    intros (f & r & d & H & _). discriminate H.
Qed.

Lemma result_only_after_ok_response_offline :
  error (ui (submit offline (idle placeholder))) <> None /\
  result (ui (submit offline (idle placeholder))) = JNull.
Proof.
  assert (H : error (ui (submit offline (idle placeholder))) <> None)
    by (vm_compute; discriminate).
  split; [exact H|].
  exact (proj2 (result_only_after_ok_response offline (idle placeholder)) H).
Defined.


(** X12: when the request is rejected, or an OK response has a body that is
    not JSON, the error shown is the message of the value thrown if that is
    an [Error] and "An unexpected error occurred" otherwise; no result is
    stored and [loading] is switched off again. *)
Theorem rejection_is_reported
        (net : network) (st : state) (features : list number) (e : thrown) :
  parseFeatures (input st) = Return (Some features) ->
  net features = FetchRejected e \/
  (exists r, net features = FetchResolved r /\ ok r = true /\
             body r = JsonRejected e) ->
  error (ui (submit net st)) =
    Some (match e with
          | ErrorObj msg => msg
          | NotAnError => Chars (lit "An unexpected error occurred")
          end) /\
  result (ui (submit net st)) = JNull /\
  loading (ui (submit net st)) = false.
Proof.
  intros P H. rewrite submit_eq, P. unfold answer.
  destruct H as [F|(r & F & K & B)]; rewrite F.
  - destruct e; repeat split.
  - rewrite K, B. destruct e; repeat split.
Qed.

Lemma rejection_is_reported_offline :
  (parseFeatures (input (idle placeholder)) = Return (Some placeholderFeatures) /\
   (offline placeholderFeatures = FetchRejected NotAnError \/
    exists r, offline placeholderFeatures = FetchResolved r /\ ok r = true /\
              body r = JsonRejected NotAnError)) /\
  error (ui (submit offline (idle placeholder))) =
    Some (Chars (lit "An unexpected error occurred")) /\
  result (ui (submit offline (idle placeholder))) = JNull /\
  loading (ui (submit offline (idle placeholder))) = false.
Proof.
  assert (P : parseFeatures (input (idle placeholder)) =
              Return (Some placeholderFeatures)) by (vm_compute; reflexivity).
  assert (F : offline placeholderFeatures = FetchRejected NotAnError \/
              exists r, offline placeholderFeatures = FetchResolved r /\
                        ok r = true /\ body r = JsonRejected NotAnError)
    by (left; reflexivity).
  split; [split; [exact P|exact F]|].
  exact (rejection_is_reported offline (idle placeholder) P F).
Defined.

(** X13: on a response that is not OK whose body is JSON but not an object
    with members: for [null] the read of [detail] throws and the message of
    that [TypeError] is shown; for a boolean, a number, a string or an array
    there is no [detail] and the status line is shown. *)
Theorem non_object_error_body
        (net : network) (st : state) (features : list number) (r : response)
        (v : jvalue) :
  parseFeatures (input st) = Return (Some features) ->
  net features = FetchResolved r ->
  ok r = false ->
  body r = JsonResolved v ->
  (v = JNull ->
   error (ui (submit net st)) = Some (NullReadMessage (lit "detail"))) /\
  (v <> JNull -> (forall fields, v <> JObject fields) ->
   error (ui (submit net st)) =
     Some (Chars (lit "HTTP " ++ decimal (status r) ++ lit ": "
                  ++ statusText r))).
Proof.
  intros P F K B. rewrite submit_eq, P. unfold answer. rewrite F, K.
  unfold httpError. rewrite B. split.
  - intros ->. reflexivity.
  - intros N0 O. destruct v; try reflexivity; [congruence|].
    now destruct (O fields).
Qed.

Lemma non_object_error_body_array :
  let r := errorResponse 422 "Unprocessable Entity" (JsonResolved (JArray [])) in
  (parseFeatures (input (idle placeholder)) = Return (Some placeholderFeatures) /\
   ok r = false /\ body r = JsonResolved (JArray [])) /\
  error (ui (submit (fun _ => FetchResolved r) (idle placeholder))) =
    Some (Chars (lit "HTTP 422: Unprocessable Entity")).
Proof.
  intros r.
  assert (P : parseFeatures (input (idle placeholder)) =
              Return (Some placeholderFeatures)) by (vm_compute; reflexivity).
  split; [split; [exact P|split; reflexivity]|].
  refine (proj2 (non_object_error_body (fun _ => FetchResolved r)
                   (idle placeholder) P eq_refl eq_refl eq_refl) _ _);
    discriminate.
Defined.

(** X14: an OK response whose body is a falsy JSON value ([null], [false],
    [0] or the empty string) is taken as a result without any error, and the
    page then shows nothing: neither the result panel nor the error panel. *)
Theorem falsy_body_shows_nothing
        (net : network) (st : state) (features : list number) (r : response)
        (data : jvalue) :
  parseFeatures (input st) = Return (Some features) ->
  net features = FetchResolved r ->
  ok r = true ->
  body r = JsonResolved data ->
  truthy (Some data) = false ->
  error (ui (submit net st)) = None /\
  result (ui (submit net st)) = data /\
  resultShown (ui (submit net st)) = false /\
  errorShown (ui (submit net st)) = Some false /\
  resultsShown (ui (submit net st)) = Some false.
Proof.
  intros P F K B T. rewrite submit_eq, P. unfold answer. rewrite F, K, B.
  unfold resultsShown, resultShown, errorShown. cbn [finished ui result error].
  rewrite T. repeat split.
Qed.

Lemma falsy_body_shows_nothing_null :
  (parseFeatures (input (idle placeholder)) = Return (Some placeholderFeatures) /\
   ok (okResponse JNull) = true /\
   body (okResponse JNull) = JsonResolved JNull /\
   truthy (Some JNull) = false) /\
  error (ui (submit (fun _ => FetchResolved (okResponse JNull))
                    (idle placeholder))) = None /\
  result (ui (submit (fun _ => FetchResolved (okResponse JNull))
                     (idle placeholder))) = JNull /\
  resultShown (ui (submit (fun _ => FetchResolved (okResponse JNull))
                          (idle placeholder))) = false /\
  errorShown (ui (submit (fun _ => FetchResolved (okResponse JNull))
                         (idle placeholder))) = Some false /\
  resultsShown (ui (submit (fun _ => FetchResolved (okResponse JNull))
                           (idle placeholder))) = Some false.
Proof.
  assert (P : parseFeatures (input (idle placeholder)) =
              Return (Some placeholderFeatures)) by (vm_compute; reflexivity).
  split; [split; [exact P|repeat split]|].
  exact (falsy_body_shows_nothing
           (fun _ => FetchResolved (okResponse JNull)) (idle placeholder)
           P eq_refl eq_refl eq_refl eq_refl).
Defined.

(** X15: a text that does not parse always gets a visible answer: the error
    panel is shown with a text that is not empty, and the result panel is
    not shown. *)
Theorem validation_failure_is_visible (net : network) (st : state) :
  (forall v, parseFeatures (input st) <> Return (Some v)) ->
  errorShown (ui (submit net st)) = Some true /\
  resultShown (ui (submit net st)) = false /\
  resultsShown (ui (submit net st)) = Some true.
Proof.
  intros H. rewrite submit_eq.
  destruct (parseFeatures (input st)) as [[v|]|e] eqn:P.
  - now destruct (H v).
  - repeat split.
  - destruct (parseFeatures_throws_shape _ P) as (msg & -> & N0).
    unfold resultsShown, resultShown, errorShown.
    cbn [finished ui result error messageOr truthy].
    destruct msg; [congruence|repeat split].
Qed.

Lemma validation_failure_is_visible_sample :
  (forall v, parseFeatures (input (idle (lit "1,,2"))) <> Return (Some v)) /\
  errorShown (ui (submit offline (idle (lit "1,,2")))) = Some true /\
  resultShown (ui (submit offline (idle (lit "1,,2")))) = false /\
  resultsShown (ui (submit offline (idle (lit "1,,2")))) = Some true.
Proof.
  assert (H : forall v, parseFeatures (input (idle (lit "1,,2")))
                        <> Return (Some v))
    by (intros v; vm_compute; discriminate).
  split; [exact H|].
  exact (validation_failure_is_visible offline (idle (lit "1,,2")) H).
Defined.

(** ** Rendering, further *)

Section OrderFacts.

Lemma SFcompare_lt_trans x y z :
  SFcompare x y = Some Lt -> SFcompare y z = Some Lt ->
  SFcompare x z = Some Lt.
Proof.
  destruct x as [sx|sx| |sx mx ex], y as [sy|sy| |sy my ey],
           z as [sz|sz| |sz mz ez]; cbn [SFcompare];
    try discriminate;
    try destruct sx; try destruct sy; try destruct sz;
    try discriminate; try reflexivity;
    intros H1 H2;
    repeat match goal with
      | H : context [(?a ?= ?b)%Z] |- _ => destruct (Z.compare_spec a b)
      | |- context [(?a ?= ?b)%Z] => destruct (Z.compare_spec a b)
      | H : context [PosDef.Pos.compare_cont Eq ?a ?b] |- _ =>
          change (PosDef.Pos.compare_cont Eq a b) with (Pos.compare a b) in *;
          destruct (Pos.compare_spec a b)
      | |- context [PosDef.Pos.compare_cont Eq ?a ?b] =>
          change (PosDef.Pos.compare_cont Eq a b) with (Pos.compare a b) in *;
          destruct (Pos.compare_spec a b)
      end;
    subst; cbn in *; try discriminate; try reflexivity; try lia.
Qed.

Lemma lt_trans x y z : lt x y = true -> lt y z = true -> lt x z = true.
Proof.
  unfold lt, SFltb. intros H1 H2.
  destruct (SFcompare x y) as [[| |]|] eqn:E1; try discriminate.
  destruct (SFcompare y z) as [[| |]|] eqn:E2; try discriminate.
  now rewrite (SFcompare_lt_trans _ _ _ E1 E2).
Qed.

Lemma last_digit (l : jsstring) :
  l <> [] ->
  exists a d, l = a ++ [d] /\
              firstn (List.length l - 1) l = a /\
              skipn (List.length l - 1) l = [d].
Proof.
  intros H. destruct (exists_last H) as (a & d & ->).
  exists a, d. rewrite length_app. cbn [List.length].
  replace (List.length a + 1 - 1)%nat with (List.length a + 0)%nat by lia.
  rewrite firstn_app_2, skipn_app, Nat.add_0_r, skipn_all.
  replace (List.length a - List.length a)%nat with 0%nat by lia.
  cbn. now rewrite app_nil_r.
Qed.

Lemma fixedDigits_one n :
  exists a d, fixedDigits 1 n = a ++ lit "." ++ [d] /\ a <> [].
Proof.
  unfold fixedDigits. cbn [Nat.eqb].
  pose proof (decimal_nonempty n) as H.
  destruct (decimal n) as [|c [|c' m]] eqn:E; [congruence| |].
  - exists [48%N], c. split; [reflexivity|discriminate].
  - cbn [List.length Nat.leb].
    destruct (@last_digit (c :: c' :: m)) as (a & d & L & F & K);
      [discriminate|].
    exists a, d.
    split; [exact (f_equal2 (@app char) F (f_equal (app (lit ".")) K))|].
    intros ->. cbn in L. injection L as _ L. discriminate L.
Qed.

End OrderFacts.

(** X16: the tier never goes down when the probability goes up: for
    [p < q], a Low label at [q] means a Low label at [p] and a High label at
    [p] means a High label at [q], and likewise an emerald bar at [q] means
    an emerald bar at [p] and a red bar at [p] means a red bar at [q]. *)
Theorem tier_is_monotone (p q : number) :
  lt p q = true ->
  (level (getRiskLevel q) = lit "Low" -> level (getRiskLevel p) = lit "Low") /\
  (level (getRiskLevel p) = lit "High" -> level (getRiskLevel q) = lit "High") /\
  (barGradient q = lit "bg-gradient-to-r from-emerald-500 to-emerald-600" ->
   barGradient p = lit "bg-gradient-to-r from-emerald-500 to-emerald-600") /\
  (barGradient p = lit "bg-gradient-to-r from-red-500 to-red-600" ->
   barGradient q = lit "bg-gradient-to-r from-red-500 to-red-600").
Proof.
  intros H.
  assert (A3 : lt q n0_3 = true -> lt p n0_3 = true) by apply (lt_trans _ _ _ H).
  assert (A7 : lt q n0_7 = true -> lt p n0_7 = true) by apply (lt_trans _ _ _ H).
  assert (B3 : gt p n0_3 = true -> gt q n0_3 = true)
    by (intros G; exact (lt_trans _ _ _ G H)).
  assert (B7 : gt p n0_7 = true -> gt q n0_7 = true)
    by (intros G; exact (lt_trans _ _ _ G H)).
  unfold getRiskLevel, barGradient.
  split; [|split; [|split]].
  - destruct (lt q n0_3); [|destruct (lt q n0_7); discriminate].
    now rewrite (A3 eq_refl).
  - destruct (lt p n0_3); [discriminate|].
    destruct (lt p n0_7); [discriminate|]. intros _.
    destruct (lt q n0_3); [now specialize (A3 eq_refl)|].
    destruct (lt q n0_7); [now specialize (A7 eq_refl)|reflexivity].
  - destruct (gt q n0_7); [discriminate|].
    destruct (gt q n0_3); [discriminate|]. intros _.
    destruct (gt p n0_7); [now specialize (B7 eq_refl)|].
    destruct (gt p n0_3); [now specialize (B3 eq_refl)|reflexivity].
  - destruct (gt p n0_7); [|destruct (gt p n0_3); discriminate].
    now rewrite (B7 eq_refl).
Qed.

Lemma tier_is_monotone_sample :
  lt (ofDecimal false 12 (-2)) (ofDecimal false 82 (-2)) = true /\
  (level (getRiskLevel (ofDecimal false 82 (-2))) = lit "Low" ->
   level (getRiskLevel (ofDecimal false 12 (-2))) = lit "Low") /\
  (level (getRiskLevel (ofDecimal false 12 (-2))) = lit "High" ->
   level (getRiskLevel (ofDecimal false 82 (-2))) = lit "High") /\
  (barGradient (ofDecimal false 82 (-2)) =
     lit "bg-gradient-to-r from-emerald-500 to-emerald-600" ->
   barGradient (ofDecimal false 12 (-2)) =
     lit "bg-gradient-to-r from-emerald-500 to-emerald-600") /\
  (barGradient (ofDecimal false 12 (-2)) =
     lit "bg-gradient-to-r from-red-500 to-red-600" ->
   barGradient (ofDecimal false 82 (-2)) =
     lit "bg-gradient-to-r from-red-500 to-red-600").
Proof.
  assert (H : lt (ofDecimal false 12 (-2)) (ofDecimal false 82 (-2)) = true)
    by (vm_compute; reflexivity).
  split; [exact H|].
  exact (tier_is_monotone (ofDecimal false 12 (-2)) (ofDecimal false 82 (-2)) H).
Defined.

(** X17: the sentence under the bar always belongs to the tier of the bar
    colour, and for a probability that is a number other than exactly 0.3 and
    0.7 it belongs to the tier of the label as well. *)
Theorem advice_follows_tier (p : number) :
  ((barGradient p = lit "bg-gradient-to-r from-red-500 to-red-600" /\
    advice p = adviceReject) \/
   (barGradient p = lit "bg-gradient-to-r from-amber-500 to-amber-600" /\
    advice p = adviceVerify) \/
   (barGradient p = lit "bg-gradient-to-r from-emerald-500 to-emerald-600" /\
    advice p = adviceApprove)) /\
  (isNaN p = false -> strictEq p n0_3 = false -> strictEq p n0_7 = false ->
   (level (getRiskLevel p) = lit "High" /\ advice p = adviceReject) \/
   (level (getRiskLevel p) = lit "Medium" /\ advice p = adviceVerify) \/
   (level (getRiskLevel p) = lit "Low" /\ advice p = adviceApprove)).
Proof.
  split.
  - unfold barGradient, advice.
    destruct (gt p n0_7); [now left|].
    destruct (gt p n0_3); [right; now left|right; now right].
  - intros N Q3 Q7.
    pose proof (below_low_below_high p) as T.
    assert (D3 : SFcompare p n0_3 <> None)
      by (apply SFcompare_defined; [exact N|reflexivity]).
    assert (D7 : SFcompare p n0_7 <> None)
      by (apply SFcompare_defined; [exact N|reflexivity]).
    unfold strictEq, SFeqb in Q3, Q7.
    unfold getRiskLevel, advice, lt, gt, SFltb.
    rewrite (SFcompare_antisym p n0_3), (SFcompare_antisym p n0_7).
    destruct (SFcompare p n0_3) as [[| |]|] eqn:E3; try congruence.
    + rewrite (T eq_refl). right. right. split; reflexivity.
    + destruct (SFcompare p n0_7) as [[| |]|] eqn:E7; try congruence.
      * right. left. split; reflexivity.
      * left. split; reflexivity.
Qed.

Lemma advice_follows_tier_sample :
  (isNaN (ofDecimal false 82 (-2)) = false /\
   strictEq (ofDecimal false 82 (-2)) n0_3 = false /\
   strictEq (ofDecimal false 82 (-2)) n0_7 = false) /\
  ((level (getRiskLevel (ofDecimal false 82 (-2))) = lit "High" /\
    advice (ofDecimal false 82 (-2)) = adviceReject) \/
   (level (getRiskLevel (ofDecimal false 82 (-2))) = lit "Medium" /\
    advice (ofDecimal false 82 (-2)) = adviceVerify) \/
   (level (getRiskLevel (ofDecimal false 82 (-2))) = lit "Low" /\
    advice (ofDecimal false 82 (-2)) = adviceApprove)).
Proof.
  split; [repeat split|].
  exact (proj2 (advice_follows_tier (ofDecimal false 82 (-2)))
               eq_refl eq_refl eq_refl).
Defined.

(** X18: when a hundred times the probability is zero or a finite number
    below [10^21] in magnitude, the percentage shown is written out in full:
    digits (after a minus sign for a negative number), a decimal point,
    exactly one more character and the percent sign. *)
Theorem percentage_has_one_decimal (r : PredictionResult) :
  inFixedRange (mul (default_probability r) n100) = true ->
  exists a d,
    flatten (probabilityText (resultView r)) =
      Some (a ++ lit "." ++ [d] ++ lit "%") /\
    a <> [].
Proof.
  unfold resultView. cbn [probabilityText].
  generalize (mul (default_probability r) n100) as x. intros x H.
  assert (F : forall sign n,
             exists a d,
               flatten [@Chars jvalue (sign ++ fixedDigits 1 n);
                        Chars (lit "%")] =
                 Some (a ++ lit "." ++ [d] ++ lit "%") /\ a <> []).
  { intros sign n. destruct (fixedDigits_one n) as (a & d & -> & Ha).
    exists (sign ++ a), d. split.
    - cbn [flatten option_map]. rewrite <- !app_assoc. reflexivity.
    - intros E. apply app_eq_nil in E. now destruct E. }
  destruct x as [s|s| |s m e]; try discriminate H.
  - exact (F [] 0%N).
  - cbn [inFixedRange] in H. unfold toFixed.
    destruct (atLeast1e21 m e); [discriminate H|]. apply F.
Qed.

Lemma percentage_has_one_decimal_sample :
  inFixedRange (mul (default_probability
                       {| prediction := n1;
                          default_probability := ofDecimal false 82 (-2) |})
                    n100) = true /\
  exists a d,
    flatten (probabilityText
               (resultView {| prediction := n1;
                              default_probability := ofDecimal false 82 (-2) |}))
      = Some (a ++ lit "." ++ [d] ++ lit "%") /\
    a <> [].
Proof.
  assert (H : inFixedRange
                (mul (default_probability
                        {| prediction := n1;
                           default_probability := ofDecimal false 82 (-2) |})
                     n100) = true) by (vm_compute; reflexivity).
  split; [exact H|].
  exact (percentage_has_one_decimal
           {| prediction := n1;
              default_probability := ofDecimal false 82 (-2) |} H).
Defined.

(** ** What the validation lets through *)

Section PrefixFacts.

Lemma shr_1_nonneg mrs : (0 <= shr_m mrs -> 0 <= shr_m (shr_1 mrs))%Z.
Proof.
  destruct mrs as [[|p|p] r s]; cbn; try lia; destruct p; cbn; lia.
Qed.

Lemma iter_shr_1_nonneg p :
  forall mrs, (0 <= shr_m mrs -> 0 <= shr_m (iter_pos shr_1 p mrs))%Z.
Proof.
  induction p as [p IH|p IH|]; intros mrs H; cbn [iter_pos].
  - apply IH, IH, shr_1_nonneg, H.
  - apply IH, IH, H.
  - apply shr_1_nonneg, H.
Qed.

Lemma shr_fexp_nonneg m e l :
  (0 <= m -> 0 <= shr_m (fst (shr_fexp prec emax m e l)))%Z.
Proof.
  intros H. unfold shr_fexp, shr.
  assert (R : (0 <= shr_m (shr_record_of_loc m l))%Z)
    by (destruct l as [|[]]; exact H).
  destruct (fexp prec emax (Zdigits2 m + e) - e)%Z; cbn [fst]; auto.
  now apply iter_shr_1_nonneg.
Qed.

(** Rounding a mantissa that is not negative never gives [NaN]. *)
Lemma binary_round_aux_not_NaN sx mx ex lx :
  (0 <= mx)%Z -> isNaN (binary_round_aux prec emax sx mx ex lx) = false.
Proof.
  intros H. unfold binary_round_aux.
  pose proof (shr_fexp_nonneg ex lx H) as H1.
  destruct (shr_fexp prec emax mx ex lx) as [mrs' e']. cbn [fst] in H1.
  assert (H2 : (0 <= round_nearest_even (shr_m mrs')
                                        (loc_of_shr_record mrs'))%Z).
  { unfold round_nearest_even.
    destruct (loc_of_shr_record mrs') as [|[]]; try exact H1; try lia.
    destruct (Z.even (shr_m mrs')); lia. }
  pose proof (shr_fexp_nonneg e' loc_Exact H2) as H3.
  destruct (shr_fexp prec emax _ e' loc_Exact) as [mrs'' e'']. cbn [fst] in H3.
  destruct (shr_m mrs''); [reflexivity| |lia].
  destruct (e'' <=? emax - prec)%Z; reflexivity.
Qed.

(** The value of a decimal is never [NaN]. *)
Lemma ofDecimal_not_NaN neg m e : isNaN (ofDecimal neg m e) = false.
Proof.
  unfold ofDecimal. destruct m as [|p]; [reflexivity|].
  destruct (Z.leb_spec 0 e) as [He|He].
  - unfold binary_round. destruct (shl_align _ _ _) as [mz ez].
    now apply binary_round_aux_not_NaN.
  - unfold SFdiv_core_binary.
    set (m' := match _ with Z0 => _ | Zpos _ => _ | Zneg _ => _ end).
    assert (Hm : (0 <= m')%Z).
    { subst m'. destruct (_ - _ - _)%Z; try lia.
      rewrite Z.shiftl_mul_pow2 by lia.
      apply Z.mul_nonneg_nonneg; [lia|apply Z.pow_nonneg; lia]. }
    assert (Hd : (0 < 10 ^ (- e))%Z) by (apply Z.pow_pos_nonneg; lia).
    pose proof (Z.div_pos m' (10 ^ (- e)) Hm Hd) as Hq.
    unfold Z.div in Hq.
    destruct (Z.div_eucl m' (10 ^ (- e))) as [q r]. cbn [fst] in Hq.
    now apply binary_round_aux_not_NaN.
Qed.

Lemma digit_cases c :
  isDigit c = true ->
  (c = 48 \/ c = 49 \/ c = 50 \/ c = 51 \/ c = 52 \/
   c = 53 \/ c = 54 \/ c = 55 \/ c = 56 \/ c = 57)%N.
Proof.
  unfold isDigit. intros H. apply Bool.andb_true_iff in H. destruct H as (L & U).
  apply N.leb_le in L, U. lia.
Qed.

Lemma digit_not_space c : isDigit c = true -> isWhiteSpace c = false.
Proof.
  intros H. apply digit_cases in H.
  repeat (destruct H as [->|H]; [reflexivity|]). now subst.
Qed.

Lemma digit_not_sign c :
  isDigit c = true ->
  (c =? 45)%N = false /\ (c =? 43)%N = false /\ (c =? 73)%N = false.
Proof.
  intros H. apply digit_cases in H.
  repeat (destruct H as [->|H]; [repeat split|]). subst. repeat split.
Qed.

Lemma takeDigits_app ds c r :
  forallb isDigit ds = true -> isDigit c = false ->
  takeDigits (ds ++ c :: r) = (ds, c :: r).
Proof.
  intros D C. induction ds as [|d ds IH]; cbn [app takeDigits].
  - now rewrite C.
  - cbn [forallb] in D. apply Bool.andb_true_iff in D. destruct D as (D & D').
    now rewrite D, (IH D').
Qed.

Lemma trimEnd_app_keep a c r :
  isWhiteSpace c = false ->
  exists r', trimEnd (a ++ c :: r) = a ++ c :: r'.
Proof.
  intros W. induction a as [|x a (r' & IH)].
  - cbn [app]. rewrite trimEnd_cons. rewrite W.
    destruct (trimEnd r) as [|y r']; [now exists []|now exists (y :: r')].
  - exists r'. cbn [app]. rewrite trimEnd_cons, IH.
    destruct a; reflexivity.
Qed.

End PrefixFacts.

(** X19: a token that starts with digits and goes on with a character that
    cannot continue a number (not a digit, a point, an [e] or white space)
    passes the validation: it is read as the digits alone and whatever
    follows is ignored. *)
Theorem numeric_prefix_is_accepted (ds rest : jsstring) (c : char) :
  ds <> [] -> forallb isDigit ds = true ->
  isDigit c = false -> isWhiteSpace c = false ->
  c <> 46%N -> c <> 101%N -> c <> 69%N ->
  parseItem (ds ++ c :: rest) = Return (ofDecimal false (digitsValue ds) 0).
Proof.
  intros Hne D C W Hp He HE.
  destruct ds as [|d ds]; [congruence|]. clear Hne.
  assert (Dd : isDigit d = true)
    by (cbn [forallb] in D; now apply Bool.andb_true_iff in D).
  destruct (@digit_not_sign d Dd) as (S1 & S2 & S3).
  assert (T : exists r', trim ((d :: ds) ++ c :: rest) = (d :: ds) ++ c :: r').
  { unfold trim. cbn [app trimStart]. rewrite (@digit_not_space d Dd).
    exact (@trimEnd_app_keep (d :: ds) c rest W). }
  destruct T as (r' & T).
  assert (P : parseFloat ((d :: ds) ++ c :: r') =
              ofDecimal false (digitsValue (d :: ds)) 0).
  { unfold parseFloat.
    replace (trimStart ((d :: ds) ++ c :: r')) with ((d :: ds) ++ c :: r')
      by (cbn [app trimStart]; now rewrite (@digit_not_space d Dd)).
    replace (takeSign ((d :: ds) ++ c :: r'))
      with (false, (d :: ds) ++ c :: r')
      by (cbn [app takeSign]; now rewrite S1, S2).
    change (startsWith (lit "Infinity") ((d :: ds) ++ c :: r'))
      with ((73 =? d)%N && startsWith (lit "nfinity") (ds ++ c :: r')).
    rewrite N.eqb_sym, S3. cbn [andb].
    rewrite (@takeDigits_app (d :: ds) c r' D C).
    apply N.eqb_neq in Hp, He, HE. rewrite Hp.
    cbn [isEmpty andb exponentPart]. rewrite He, HE. cbn [orb].
    now rewrite app_nil_r. }
  unfold parseItem. rewrite T, P.
  now rewrite ofDecimal_not_NaN.
Qed.

Lemma numeric_prefix_is_accepted_sample :
  (lit "12" <> [] /\ forallb isDigit (lit "12") = true /\
   isDigit 97%N = false /\ isWhiteSpace 97%N = false /\
   97%N <> 46%N /\ 97%N <> 101%N /\ 97%N <> 69%N) /\
  parseItem (lit "12abc") = Return (ofDecimal false 12 0).
Proof.
  split; [repeat split; discriminate|].
  exact (@numeric_prefix_is_accepted (lit "12") (lit "bc") 97%N
           ltac:(discriminate) eq_refl eq_refl eq_refl
           ltac:(discriminate) ltac:(discriminate) ltac:(discriminate)).
Defined.

Section StartFacts.

Lemma takeDigits_none r :
  isEmpty (fst (takeDigits r)) =
  negb match r with d :: _ => isDigit d | [] => false end.
Proof.
  destruct r as [|d r]; [reflexivity|]. cbn [takeDigits].
  destruct (isDigit d); [|reflexivity].
  now destruct (takeDigits r).
Qed.

(** [parseFloat] gives [NaN] exactly when the text does not start as a
    number does: no value that it computes is [NaN]. *)
Lemma parseFloat_NaN s : isNaN (parseFloat s) = negb (startsNumber s).
Proof.
  unfold parseFloat, startsNumber.
  destruct (takeSign (trimStart s)) as [neg r]. cbn [snd].
  destruct (startsWith (lit "Infinity") r); [reflexivity|]. cbn [orb].
  pose proof (takeDigits_none r) as Hip.
  destruct (takeDigits r) as [ip r1] eqn:E. cbn [fst] in Hip.
  destruct r as [|d r'].
  - injection E as <- <-. reflexivity.
  - cbn [takeDigits] in E. destruct (isDigit d) eqn:D.
    + rewrite Hip.
      destruct (match r1 with
                | [] => ([], r1)
                | c :: r1' => if (c =? 46)%N then takeDigits r1' else ([], r1)
                end) as [fp r2].
      cbn [negb andb orb]. apply ofDecimal_not_NaN.
    + injection E as <- <-. cbn [orb].
      destruct (d =? 46)%N; [|reflexivity].
      pose proof (takeDigits_none r') as Hfp.
      destruct (takeDigits r') as [fp r2]. cbn [fst] in Hfp.
      cbn [isEmpty andb]. rewrite <- Hfp.
      destruct fp; [reflexivity|]. cbn [isEmpty]. apply ofDecimal_not_NaN.
Qed.

End StartFacts.

(** X20: whether a token passes the validation is decided by how its
    trimmed text starts: it passes exactly when, after one optional sign,
    there is [Infinity], a digit, or a point and a digit.  No token is
    turned down for the size of its value. *)
Theorem validation_looks_at_the_start (tok : jsstring) :
  (startsNumber (trim tok) = true ->
   parseItem tok = Return (parseFloat (trim tok)) /\
   isNaN (parseFloat (trim tok)) = false) /\
  (startsNumber (trim tok) = false ->
   parseItem tok =
     Throw (ErrorObj (Chars (lit "Invalid number: " ++ trim tok)))).
Proof.
  unfold parseItem. rewrite parseFloat_NaN.
  destruct (startsNumber (trim tok)); split; intros H;
    try discriminate H; auto.
Qed.

Lemma validation_looks_at_the_start_sample :
  (startsNumber (trim (lit " -1e999x ")) = true /\
   parseItem (lit " -1e999x ") = Return (S754_infinity true)) /\
  (startsNumber (trim (lit " e5 ")) = false /\
   parseItem (lit " e5 ") = Throw (ErrorObj (Chars (lit "Invalid number: e5")))).
Proof.
  split; (split; [vm_compute; reflexivity|]).
  - exact (proj1 (proj1 (validation_looks_at_the_start (lit " -1e999x "))
                        eq_refl)).
  - exact (proj2 (validation_looks_at_the_start (lit " e5 ")) eq_refl).
Defined.
